(** * Document service: validation, classification and the document store

    A shallow embedding of [src/services/documentService.ts] (class
    [DocumentService]) and the properties its specification states about it.

    Conventions of the embedding:
    - a JavaScript string is a [string] (a sequence of 8-bit code units);
      [toLowerCase] lower-cases the letters A-Z and leaves every other unit
      alone;
    - [file.size] is an integer [Z]; the bytes of a file are a
      [list Byte.byte];
    - the [Map<string, Document>] of the service is a [gmap string Document];
    - an [async] method is run to completion (the service is single
      threaded); what it does to the service, to [localStorage] and to the
      console is explicit state passing in the monad [M];
    - values the platform supplies ([Date.now()], [Math.random()], whether a
      read or a fetch succeeds) are inputs of the embedded functions;
    - an [onProgress] callback only observes: the values it is called with
      are recorded, and it does not throw. *)

From Stdlib Require Import ZArith List Ascii String Bool Lia.
From Stdlib Require Import Strings.Byte.
From Stdlib Require Import DecimalString.
From stdpp Require Import base option gmap strings.
Import ListNotations.

Local Open Scope string_scope.
Local Open Scope Z_scope.

(** ** JavaScript strings *)

Module JsString.

Definition lower_ascii (c : ascii) : ascii :=
  let n := N_of_ascii c in
  if ((65 <=? n) && (n <=? 90))%N then ascii_of_N (n + 32) else c.

(** [s.toLowerCase()] *)
Fixpoint toLowerCase (s : string) : string :=
  match s with
  | EmptyString => EmptyString
  | String c r => String (lower_ascii c) (toLowerCase r)
  end.

(** [s.startsWith(p)] *)
Definition startsWith (s p : string) : bool := String.prefix p s.

(** [s.includes(p)]: [p] starts at some position of [s]. *)
Fixpoint includes (s p : string) : bool :=
  startsWith s p ||
  match s with
  | EmptyString => false
  | String _ r => includes r p
  end.

(** [s.endsWith(p)] *)
Definition endsWith (s p : string) : bool :=
  let n := String.length s in
  let k := String.length p in
  (k <=? n)%nat && String.eqb (String.substring (n - k) k s) p.

(** [s.split(',')]: the pieces between the commas, at least one piece. *)
Fixpoint split_comma (s : string) : list string :=
  match s with
  | EmptyString => [EmptyString]
  | String c r =>
      if Ascii.eqb c "," then EmptyString :: split_comma r
      else match split_comma r with
           | [] => [String c EmptyString]
           | p :: ps => String c p :: ps
           end
  end.

(** No unit of [s] is a comma. *)
Fixpoint comma_free (s : string) : bool :=
  match s with
  | EmptyString => true
  | String c r => negb (Ascii.eqb c ",") && comma_free r
  end.

(** [String.fromCharCode(...bytes)] for the elements of a [Uint8Array]. *)
Definition fromCharCode (bytes : list byte) : string :=
  string_of_list_byte bytes.

(** [String(n)] for an integer [n], as in a template literal. *)
Definition of_Z (n : Z) : string := NilZero.string_of_int (Z.to_int n).

End JsString.

Import JsString.

(** ** Files *)

(** A [Blob] of the browser: its declared MIME [type], its [size] and its
    bytes.  The platform decides whether a read succeeds: [buffer_ok] is the
    outcome of [arrayBuffer()] on a slice of it, [reader_ok] the outcome of
    [FileReader.readAsDataURL].  For a blob handed over by the browser [size]
    is the number of bytes ([Blob.wf]); no theorem below needs that. *)
Module Blob.
Record t : Type := mk
  { type : string;
    size : Z;
    content : list byte;
    buffer_ok : bool;
    reader_ok : bool }.

Definition wf (b : t) : Prop := size b = Z.of_nat (List.length (content b)).

(** [blob.slice(start, stop)] for [0 <= start <= stop]: the bytes of the
    slice. *)
Definition slice (start stop : nat) (b : t) : list byte :=
  firstn (stop - start) (skipn start (content b)).

(** [await slice.arrayBuffer()]: the bytes, or a rejection. *)
Definition arrayBuffer (b : t) (bytes : list byte) : option (list byte) :=
  if buffer_ok b then Some bytes else None.
End Blob.

(** A [File] is a [Blob] with a [name]. *)
Module File.
Record t : Type := mk
  { name : string;
    blob : Blob.t }.

Definition type (f : t) : string := Blob.type (blob f).
Definition size (f : t) : Z := Blob.size (blob f).
Definition content (f : t) : list byte := Blob.content (blob f).
Definition buffer_ok (f : t) : bool := Blob.buffer_ok (blob f).
Definition reader_ok (f : t) : bool := Blob.reader_ok (blob f).
Definition slice (start stop : nat) (f : t) : list byte :=
  Blob.slice start stop (blob f).
Definition arrayBuffer (f : t) (bytes : list byte) : option (list byte) :=
  Blob.arrayBuffer (blob f) bytes.
End File.

(** ** Validator: [validatePDF] *)

Record ValidationResult : Type := mkValidation
  { valid : bool;
    error : option string }.

Definition invalid (msg : string) : ValidationResult :=
  {| valid := false; error := Some msg |}.

Definition accepted : ValidationResult :=
  {| valid := true; error := None |}.

Definition MAX_SIZE : Z := 50 * 1024 * 1024.

Definition validatePDF (file : File.t) : ValidationResult :=
  if negb (String.eqb (File.type file) "application/pdf") then
    invalid "File must be a PDF document"
  else if File.size file >? MAX_SIZE then
    invalid "File size exceeds 50MB limit"
  else if File.size file <? 1024 then
    invalid "File is too small to be a valid PDF"
  else
    match File.arrayBuffer file (File.slice 0 5 file) with
    | Some bytes =>
        let signature := fromCharCode bytes in
        if negb (startsWith signature "%PDF") then
          invalid "File does not appear to be a valid PDF"
        else accepted
    | None => invalid "Failed to read file"
    end.

(** The validator as the specification words it: a table of rules, applied in
    order, the first failing rule giving the reason. *)
Module ValidatorSpec.

Inductive Reason : Type :=
| NotPdf | TooLarge | TooSmall | BadSignature | Unreadable.

Definition message (r : Reason) : string :=
  match r with
  | NotPdf => "File must be a PDF document"
  | TooLarge => "File size exceeds 50MB limit"
  | TooSmall => "File is too small to be a valid PDF"
  | BadSignature => "File does not appear to be a valid PDF"
  | Unreadable => "Failed to read file"
  end.

Definition Rule : Type := File.t -> option Reason.

Definition mime_rule : Rule := fun f =>
  if String.eqb (File.type f) "application/pdf" then None else Some NotPdf.

Definition max_rule : Rule := fun f =>
  if File.size f <=? 50 * 1024 * 1024 then None else Some TooLarge.

Definition min_rule : Rule := fun f =>
  if 1024 <=? File.size f then None else Some TooSmall.

Definition signature_rule : Rule := fun f =>
  if File.buffer_ok f then
    if startsWith (fromCharCode (firstn 5 (File.content f))) "%PDF"
    then None else Some BadSignature
  else Some Unreadable.

Definition rules : list Rule :=
  [mime_rule; max_rule; min_rule; signature_rule].

Fixpoint first_failure (rs : list Rule) (f : File.t) : option Reason :=
  match rs with
  | [] => None
  | r :: rs' =>
      match r f with
      | Some why => Some why
      | None => first_failure rs' f
      end
  end.

Definition validate (f : File.t) : ValidationResult :=
  match first_failure rules f with
  | Some why => invalid (message why)
  | None => accepted
  end.

End ValidatorSpec.

(** ** Classifier: [detectDocumentType] and [extractDocumentName] *)

Inductive DocumentType : Type :=
| TDS | ESR | MSDS | LEED | Installation | warranty | Acoustic | PartSpec.

Definition detectDocumentType (filename : string) : DocumentType :=
  let lower := toLowerCase filename in
  if includes lower "tds" || includes lower "technical data" then TDS
  else if includes lower "esr" || includes lower "evaluation report" then ESR
  else if includes lower "msds" || includes lower "safety data" then MSDS
  else if includes lower "leed" then LEED
  else if includes lower "installation" || includes lower "install"
       then Installation
  else if includes lower "warranty" then warranty
  else if includes lower "acoustic" || includes lower "esl" then Acoustic
  else if includes lower "spec" || includes lower "3-part" then PartSpec
  else TDS.

(** [filename.replace(/\.pdf$/i, '')] *)
Definition strip_pdf_extension (filename : string) : string :=
  if endsWith (toLowerCase filename) ".pdf"
  then String.substring 0 (String.length filename - 4) filename
  else filename.

Definition typeMap (type : DocumentType) : string :=
  match type with
  | TDS => "Technical Data Sheet"
  | ESR => "Evaluation Report"
  | MSDS => "Material Safety Data Sheet"
  | LEED => "LEED Credit Guide"
  | Installation => "Installation Guide"
  | warranty => "Limited Warranty"
  | Acoustic => "Acoustical Performance"
  | PartSpec => "3-Part Specifications"
  end.

(** [a || b] on strings: the empty string is the only falsy one. *)
Definition or_else (a b : string) : string :=
  match a with
  | EmptyString => b
  | _ => a
  end.

Definition extractDocumentName (filename : string) (type : DocumentType)
  : string :=
  let name := strip_pdf_extension filename in
  or_else (typeMap type) name.

(** The two steps [uploadDocument] takes on a file name. *)
Definition classify (filename : string) : DocumentType * string :=
  let type := detectDocumentType filename in
  (type, extractDocumentName filename type).

(** The classifier as the specification words it: an ordered table of
    (keywords, type) pairs and a default. *)
Module ClassifierSpec.

Definition table : list (list string * DocumentType) :=
  [ (["tds"; "technical data"], TDS);
    (["esr"; "evaluation report"], ESR);
    (["msds"; "safety data"], MSDS);
    (["leed"], LEED);
    (["installation"; "install"], Installation);
    (["warranty"], warranty);
    (["acoustic"; "esl"], Acoustic);
    (["spec"; "3-part"], PartSpec) ].

Definition matches (lower : string) (keywords : list string) : bool :=
  existsb (includes lower) keywords.

Fixpoint first_match (rows : list (list string * DocumentType))
    (lower : string) : option DocumentType :=
  match rows with
  | [] => None
  | (keywords, type) :: rows' =>
      if matches lower keywords then Some type else first_match rows' lower
  end.

Definition type_of (filename : string) : DocumentType :=
  match first_match table (toLowerCase filename) with
  | Some type => type
  | None => TDS
  end.

Definition label (type : DocumentType) : string :=
  match type with
  | TDS => "Technical Data Sheet"
  | ESR => "Evaluation Report"
  | MSDS => "Material Safety Data Sheet"
  | LEED => "LEED Credit Guide"
  | Installation => "Installation Guide"
  | warranty => "Limited Warranty"
  | Acoustic => "Acoustical Performance"
  | PartSpec => "3-Part Specifications"
  end.

End ClassifierSpec.

(** ** Base64 and data URLs *)

Module Base64.

Definition alphabet : list ascii :=
  list_ascii_of_string
    "ABCDEFGHIJKLMNOPQRSTUVWXYZabcdefghijklmnopqrstuvwxyz0123456789+/".

Definition pad : ascii := "="%char.

Definition digit (n : N) : ascii := nth (N.to_nat n) alphabet pad.

Definition code (b : byte) : N := Byte.to_N b.

(** Three bytes give four digits; a last group of one or two bytes is
    padded with [=]. *)
Fixpoint encode (bytes : list byte) : string :=
  match bytes with
  | [] => EmptyString
  | [a] =>
      String (digit (N.shiftr (code a) 2))
        (String (digit (N.shiftl (N.land (code a) 3) 4))
           (String pad (String pad EmptyString)))
  | [a; b] =>
      String (digit (N.shiftr (code a) 2))
        (String (digit (N.lor (N.shiftl (N.land (code a) 3) 4)
                              (N.shiftr (code b) 4)))
           (String (digit (N.shiftl (N.land (code b) 15) 2))
              (String pad EmptyString)))
  | a :: b :: c :: rest =>
      String (digit (N.shiftr (code a) 2))
        (String (digit (N.lor (N.shiftl (N.land (code a) 3) 4)
                              (N.shiftr (code b) 4)))
           (String (digit (N.lor (N.shiftl (N.land (code b) 15) 2)
                                 (N.shiftr (code c) 6)))
              (String (digit (N.land (code c) 63)) (encode rest))))
  end.

End Base64.

(** The [result] of a [FileReader] after a successful [readAsDataURL]. *)
Definition dataURL (b : Blob.t) : string :=
  "data:" ++ Blob.type b ++ ";base64," ++ Base64.encode (Blob.content b).

(** [a[1]] on the array a [split] returns: [None] is [undefined]. *)
Definition second (pieces : list string) : option string :=
  match pieces with
  | _ :: piece :: _ => Some piece
  | _ => None
  end.

(** A possibly [undefined] string inside a template literal. *)
Definition interpolate (v : option string) : string :=
  match v with
  | Some s => s
  | None => "undefined"
  end.

(** ** Documents *)

(** The [Document] of [@/types], with the fields [uploadDocument] fills in.
    A [ProductType] is kept as the string it is at run time. *)
Module Document.
Record t : Type := mk
  { id : string;
    name : string;
    description : string;
    filename : string;
    url : string;
    size : Z;
    type : DocumentType;
    required : bool;
    products : list string;
    productType : string }.
End Document.

(** [Partial<Document>]: every field may be missing. *)
Module Partial.
Record t : Type := mk
  { id : option string;
    name : option string;
    description : option string;
    filename : option string;
    url : option string;
    size : option Z;
    type : option DocumentType;
    required : option bool;
    products : option (list string);
    productType : option string }.

Definition none : t :=
  mk None None None None None None None None None None.
End Partial.

(** The name of a [DocumentType] as a template literal prints it. *)
Definition type_literal (type : DocumentType) : string :=
  match type with
  | TDS => "TDS"
  | ESR => "ESR"
  | MSDS => "MSDS"
  | LEED => "LEED"
  | Installation => "Installation"
  | warranty => "warranty"
  | Acoustic => "Acoustic"
  | PartSpec => "PartSpec"
  end.

(** [{ ...existing, ...updates }]: a field of [updates] that is there wins. *)
Definition spread (existing : Document.t) (updates : Partial.t) : Document.t :=
  {| Document.id := default (Document.id existing) (Partial.id updates);
     Document.name := default (Document.name existing) (Partial.name updates);
     Document.description :=
       default (Document.description existing) (Partial.description updates);
     Document.filename :=
       default (Document.filename existing) (Partial.filename updates);
     Document.url := default (Document.url existing) (Partial.url updates);
     Document.size := default (Document.size existing) (Partial.size updates);
     Document.type := default (Document.type existing) (Partial.type updates);
     Document.required :=
       default (Document.required existing) (Partial.required updates);
     Document.products :=
       default (Document.products existing) (Partial.products updates);
     Document.productType :=
       default (Document.productType existing) (Partial.productType updates) |}.

(** The object literal of [updateDocument]:
    [{ ...existing, ...updates, id: existing.id,
       productType: existing.productType, url: existing.url }]. *)
Definition updated (existing : Document.t) (updates : Partial.t) : Document.t :=
  let merged := spread existing updates in
  {| Document.id := Document.id existing;
     Document.name := Document.name merged;
     Document.description := Document.description merged;
     Document.filename := Document.filename merged;
     Document.url := Document.url existing;
     Document.size := Document.size merged;
     Document.type := Document.type merged;
     Document.required := Document.required merged;
     Document.products := Document.products merged;
     Document.productType := Document.productType existing |}.

(** ** The service, its surroundings and the monad of its methods *)

(** What [localStorage] holds under the key ['documents']: the JSON text of a
    [Document[]], kept in parsed form, or a text [JSON.parse] rejects (with a
    [SyntaxError]).  A text [JSON.parse] accepts that is not the JSON of a
    [Document[]] is not covered by this type. *)
Inductive StoredItem : Type :=
| Snapshot (docs : list Document.t)
| Garbled (raw : string).

(** [getItem_ok] and [setItem_ok] say whether the platform lets the call
    through (storage may be disabled, the quota may be used up). *)
Record LocalStorage : Type := mkStorage
  { item : option StoredItem;
    getItem_ok : bool;
    setItem_ok : bool }.

(** The fields of the class. *)
Record DocumentService : Type := mkService
  { documents : gmap string Document.t;
    nextId : Z }.

(** The service together with what its methods can reach: the storage, the
    lines written with [console.error], the values passed to an [onProgress]
    callback. *)
Record World : Type := mkWorld
  { service : DocumentService;
    localStorage : LocalStorage;
    console : list string;
    progress : list Z }.

(** What a [throw] or a rejected promise carries: an [Error] with its message,
    or a value that is not an [Error] (the event of a failed [FileReader]). *)
Inductive Thrown : Type :=
| Error (message : string)
| NotAnError.

Inductive Outcome (A : Type) : Type :=
| Returned (a : A)
| Threw (e : Thrown).
Arguments Returned {A} a.
Arguments Threw {A} e.

Definition M (A : Type) : Type := World -> Outcome A * World.

Definition ret {A} (a : A) : M A := fun w => (Returned a, w).

Definition throw {A} (e : Thrown) : M A := fun w => (Threw e, w).

Definition bind {A B} (m : M A) (k : A -> M B) : M B := fun w =>
  match m w with
  | (Returned a, w') => k a w'
  | (Threw e, w') => (Threw e, w')
  end.

(** [try { body } catch (error) { handler }] *)
Definition try_catch {A} (body : M A) (handler : Thrown -> M A) : M A :=
  fun w =>
    match body w with
    | (Returned a, w') => (Returned a, w')
    | (Threw e, w') => handler e w'
    end.

Declare Scope js_scope.
Delimit Scope js_scope with js.
Notation "x <- m ;; k" := (bind m (fun x => k))
  (at level 100, m at next level, right associativity) : js_scope.
Notation "m ;;; k" := (bind m (fun _ => k))
  (at level 100, right associativity) : js_scope.
Local Open Scope js_scope.

(** *** Primitive effects *)

(** [console.error(msg, error)]: the message is what gets recorded. *)
Definition console_error (msg : string) : M unit := fun w =>
  (Returned tt,
   {| service := service w; localStorage := localStorage w;
      console := console w ++ [msg]; progress := progress w |}).

(** [if (onProgress) onProgress(n)] *)
Definition report (onProgress : bool) (n : Z) : M unit := fun w =>
  (Returned tt,
   if onProgress then
     {| service := service w; localStorage := localStorage w;
        console := console w; progress := progress w ++ [n] |}
   else w).

(** [localStorage.getItem('documents')] *)
Definition getItem : M (option StoredItem) := fun w =>
  if getItem_ok (localStorage w) then (Returned (item (localStorage w)), w)
  else (Threw (Error "SecurityError"), w).

(** [localStorage.setItem('documents', JSON.stringify(docs))] *)
Definition setItem (docs : list Document.t) : M unit := fun w =>
  if setItem_ok (localStorage w) then
    (Returned tt,
     {| service := service w;
        localStorage :=
          {| item := Some (Snapshot docs);
             getItem_ok := getItem_ok (localStorage w);
             setItem_ok := setItem_ok (localStorage w) |};
        console := console w; progress := progress w |})
  else (Threw (Error "QuotaExceededError"), w).

(** [JSON.parse(stored)] *)
Definition JSON_parse (stored : StoredItem) : M (list Document.t) :=
  match stored with
  | Snapshot docs => ret docs
  | Garbled _ => throw (Error "SyntaxError")
  end.

(** [if (stored)]: [null] and the empty text are falsy. *)
Definition truthy (stored : option StoredItem) : option StoredItem :=
  match stored with
  | Some (Garbled EmptyString) => None
  | other => other
  end.

(** [this.documents.set(key, doc)] *)
Definition documents_set (key : string) (doc : Document.t) : M unit := fun w =>
  (Returned tt,
   {| service :=
        {| documents := <[key := doc]> (documents (service w));
           nextId := nextId (service w) |};
      localStorage := localStorage w;
      console := console w; progress := progress w |}).

(** [this.documents.delete(key)] *)
Definition documents_delete (key : string) : M unit := fun w =>
  (Returned tt,
   {| service :=
        {| documents := delete key (documents (service w));
           nextId := nextId (service w) |};
      localStorage := localStorage w;
      console := console w; progress := progress w |}).

(** [this.documents.get(key)] *)
Definition documents_get (key : string) : M (option Document.t) := fun w =>
  (Returned (documents (service w) !! key), w).

(** [this.documents.has(key)] *)
Definition documents_has (key : string) : M bool := fun w =>
  (Returned (bool_decide (is_Some (documents (service w) !! key))), w).

(** [Array.from(this.documents.values())]; the order of the values is the
    one [map_to_list] gives. *)
Definition documents_values : M (list Document.t) := fun w =>
  (Returned (snd <$> map_to_list (documents (service w))), w).

(** [docs.forEach(doc => body doc)] *)
Fixpoint forEach {A} (xs : list A) (body : A -> M unit) : M unit :=
  match xs with
  | [] => ret tt
  | x :: xs' => body x ;;; forEach xs' body
  end.

(** *** The methods *)

Definition loadFromLocalStorage : M unit :=
  try_catch
    (stored <- getItem ;;
     match truthy stored with
     | Some text =>
         docs <- JSON_parse text ;;
         forEach docs (fun doc => documents_set (Document.id doc) doc)
     | None => ret tt
     end)
    (fun _ => console_error "Error loading documents from storage:").

Definition saveToLocalStorage : M unit :=
  try_catch
    (docs <- documents_values ;;
     setItem docs)
    (fun _ => console_error "Error saving documents to storage:").

(** [new DocumentService()] in surroundings [storage]: the field
    initialisers, then the constructor body. *)
Definition new_DocumentService (storage : LocalStorage) : World :=
  snd (loadFromLocalStorage
         {| service := {| documents := ∅; nextId := 1 |};
            localStorage := storage;
            console := [];
            progress := [] |}).

Definition getDocument (id : string) : M (option Document.t) :=
  doc <- documents_get id ;;
  ret doc.

(** [await new Promise(...)] around a [FileReader]: the second piece of the
    data URL, or the rejection with the reader's error event. *)
Definition readAsDataURL (b : Blob.t) : M (option string) :=
  if Blob.reader_ok b then ret (second (split_comma (dataURL b)))
  else throw NotAnError.

(** [`doc_${Date.now()}_${Math.random().toString(36).substr(2, 9)}`], with
    [now] the clock reading and [suffix] the random digits. *)
Definition fresh_id (now : Z) (suffix : string) : string :=
  "doc_" ++ of_Z now ++ "_" ++ suffix.

(** The object literal of [uploadDocument]; [fileData] is the second piece
    of the reader's data URL. *)
Definition new_document (file : File.t) (productType : string)
    (now : Z) (suffix : string) (fileData : option string) : Document.t :=
  let type := detectDocumentType (File.name file) in
  let name := extractDocumentName (File.name file) type in
  {| Document.id := fresh_id now suffix;
     Document.name := name;
     Document.description := type_literal type ++ " Document";
     Document.filename := File.name file;
     Document.url := "data:application/pdf;base64," ++ interpolate fileData;
     Document.size := File.size file;
     Document.type := type;
     Document.required := false;
     Document.products := [];
     Document.productType := productType |}.

Definition uploadDocument (file : File.t) (productType : string)
    (onProgress : bool) (now : Z) (suffix : string) : M Document.t :=
  let validation := validatePDF file in
  if negb (valid validation) then
    throw (Error (or_else (default EmptyString (error validation))
                          "Invalid PDF file"))
  else
    try_catch
      (report onProgress 25 ;;;
       fileData <- readAsDataURL (File.blob file) ;;
       report onProgress 50 ;;;
       let doc := new_document file productType now suffix fileData in
       documents_set (Document.id doc) doc ;;;
       saveToLocalStorage ;;;
       report onProgress 100 ;;;
       ret doc)
      (fun e =>
         console_error "Error in uploadDocument:" ;;;
         match e with
         | Error _ => throw e
         | NotAnError => throw (Error "Failed to upload document")
         end).

Definition updateDocument (id : string) (updates : Partial.t) : M unit :=
  existing <- documents_get id ;;
  match existing with
  | None => throw (Error "Document not found")
  | Some existing =>
      documents_set id (updated existing updates) ;;;
      saveToLocalStorage
  end.

Definition deleteDocument (id : string) : M unit :=
  present <- documents_has id ;;
  if negb present then
    throw (Error "Document not found")
  else
    documents_delete id ;;;
    saveToLocalStorage.

(** What [exportDocumentAsBase64] resolves to. *)
Inductive Payload : Type :=
| null
| undefined
| text (s : string).

Definition payload_of (v : option string) : Payload :=
  match v with
  | Some s => text s
  | None => undefined
  end.

(** What the network does with [fetch(url)] followed by [response.blob()]. *)
Inductive Remote : Type :=
| fetch_rejects
| blob_rejects
| body (b : Blob.t).

(** [await fetch(url)] then [await response.blob()] *)
Definition fetch_blob (network : string -> Remote) (url : string) : M Blob.t :=
  match network url with
  | fetch_rejects => throw (Error "Failed to fetch")
  | blob_rejects => throw (Error "Failed to read the response")
  | body b => ret b
  end.

(** The [try] block returns the reader's promise without awaiting it, so a
    rejection of that promise is not seen by the [catch]: the reading step
    comes after the [try_catch]. *)
Definition exportDocumentAsBase64 (network : string -> Remote) (id : string)
  : M Payload :=
  doc <- documents_get id ;;
  match doc with
  | None => ret null
  | Some doc =>
      if String.eqb (Document.url doc) EmptyString then ret null
      else
        step <-
          try_catch
            (if startsWith (Document.url doc) "data:" then
               ret (inl (payload_of (second (split_comma (Document.url doc)))))
             else
               blob <- fetch_blob network (Document.url doc) ;;
               ret (inr blob))
            (fun _ =>
               console_error "Error exporting document:" ;;;
               ret (inl null)) ;;
        match step with
        | inl result => ret result
        | inr blob =>
            base64Data <- readAsDataURL blob ;;
            ret (payload_of base64Data)
        end
  end.

(** ** Reachable states of the store *)

(** One call of a method that changes the service, or a change the
    surroundings make to the storage between two calls. *)
Inductive Step : World -> World -> Prop :=
| step_upload w file productType onProgress now suffix :
    Step w (snd (uploadDocument file productType onProgress now suffix w))
| step_update w id updates :
    Step w (snd (updateDocument id updates w))
| step_delete w id :
    Step w (snd (deleteDocument id w))
| step_export w network id :
    Step w (snd (exportDocumentAsBase64 network id w))
| step_storage w storage :
    Step w {| service := service w; localStorage := storage;
              console := console w; progress := progress w |}.

(** The states a service gets into: constructed over any storage (which
    loads the persisted snapshot, if there is one), then used. *)
Inductive reachable : World -> Prop :=
| reachable_new storage : reachable (new_DocumentService storage)
| reachable_step w w' : reachable w -> Step w w' -> reachable w'.

(** Every key of the map is the [id] of the record stored under it. *)
Definition keyed_by_id (w : World) : Prop :=
  forall key doc,
    documents (service w) !! key = Some doc -> key = Document.id doc.

(** ** Sample inputs *)

Module Sample.

(** A well-formed PDF file of exactly 1 KiB. *)
Definition bytes : list byte :=
  list_byte_of_string "%PDF-1.4" ++ repeat x00 1016.

Definition file : File.t :=
  {| File.name := "Product-TDS-sheet.pdf";
     File.blob :=
       {| Blob.type := "application/pdf"; Blob.size := 1024;
          Blob.content := bytes;
          Blob.buffer_ok := true; Blob.reader_ok := true |} |}.

Definition doc : Document.t :=
  {| Document.id := "doc_1700000000000_k3x9q2m1z";
     Document.name := "Technical Data Sheet";
     Document.description := "TDS Document";
     Document.filename := "Product-TDS-sheet.pdf";
     Document.url := "data:application/pdf;base64,JVBERi0xLjQ=";
     Document.size := 1024;
     Document.type := TDS;
     Document.required := false;
     Document.products := [];
     Document.productType := "underlayment" |}.

(** A document whose content lives on a server. *)
Definition remote_doc : Document.t :=
  {| Document.id := "doc_1700000000001_r8w2c5v7b";
     Document.name := "Evaluation Report";
     Document.description := "ESR Document";
     Document.filename := "esr-1234.pdf";
     Document.url := "https://example.com/esr-1234.pdf";
     Document.size := 2048;
     Document.type := ESR;
     Document.required := false;
     Document.products := [];
     Document.productType := "structural-floor" |}.

(** Storage that works and holds a snapshot with the two documents. *)
Definition storage : LocalStorage :=
  {| item := Some (Snapshot [doc; remote_doc]);
     getItem_ok := true; setItem_ok := true |}.

(** The same snapshot in a storage whose quota is used up: reads work,
    every write fails. *)
Definition full_storage : LocalStorage :=
  {| item := Some (Snapshot [doc; remote_doc]);
     getItem_ok := true; setItem_ok := false |}.

(** Storage the page may not read. *)
Definition locked_storage : LocalStorage :=
  {| item := Some (Snapshot [doc; remote_doc]);
     getItem_ok := false; setItem_ok := true |}.

Definition world : World := new_DocumentService storage.

Definition full_world : World := new_DocumentService full_storage.

(** An update that tries to move the document to another category. *)
Definition other_category : Partial.t :=
  {| Partial.id := None; Partial.name := Some "Renamed";
     Partial.description := None; Partial.filename := None;
     Partial.url := None; Partial.size := None; Partial.type := None;
     Partial.required := Some true; Partial.products := None;
     Partial.productType := Some "other" |}.

(** A network on which every request fails. *)
Definition offline : string -> Remote := fun _ => fetch_rejects.

End Sample.

(** ** Listing and bulk export *)

(** The comparator of the two listing methods,
    [new Date(b.filename).getTime() - new Date(a.filename).getTime()];
    [getTime] is the platform's reading of a text as a date, [None] being
    [NaN], and a [NaN] on either side makes the difference [NaN]. *)
Definition by_filename_date (getTime : string -> option Z)
    (a b : Document.t) : option Z :=
  match getTime (Document.filename b), getTime (Document.filename a) with
  | Some tb, Some ta => Some (tb - ta)
  | _, _ => None
  end.

(** [Array.from(this.documents.values()).sort(...)]; [sort] is the platform's
    [Array.prototype.sort]. *)
Definition getAllDocuments (getTime : string -> option Z)
    (sort : (Document.t -> Document.t -> option Z) ->
            list Document.t -> list Document.t)
  : M (list Document.t) :=
  docs <- documents_values ;;
  ret (sort (by_filename_date getTime) docs).

Definition getDocumentsByProductType (getTime : string -> option Z)
    (sort : (Document.t -> Document.t -> option Z) ->
            list Document.t -> list Document.t)
    (productType : string) : M (list Document.t) :=
  docs <- documents_values ;;
  ret (sort (by_filename_date getTime)
         (List.filter
            (fun doc => String.eqb (Document.productType doc) productType)
            docs)).

(** [if (fileData) results.push({ ...doc, fileData })]: [null], [undefined]
    and the empty text are falsy. *)
Definition push_if_data (results : list (Document.t * string))
    (doc : Document.t) (fileData : Payload) : list (Document.t * string) :=
  match fileData with
  | text (String c rest) => results ++ [(doc, String c rest)]
  | _ => results
  end.

(** The [for (const doc of documents)] loop of [getAllDocumentsWithData]. *)
Fixpoint collect_data (network : string -> Remote) (docs : list Document.t)
    (results : list (Document.t * string)) : M (list (Document.t * string)) :=
  match docs with
  | [] => ret results
  | doc :: rest =>
      fileData <- exportDocumentAsBase64 network (Document.id doc) ;;
      collect_data network rest (push_if_data results doc fileData)
  end.

Definition getAllDocumentsWithData (network : string -> Remote)
  : M (list (Document.t * string)) :=
  docs <- documents_values ;;
  collect_data network docs [].

(** ** The mock authentication service *)

(** [AuthService]: one flag.  The methods pass the service explicitly. *)
Module AuthService.

Record t : Type := mk { isAuth : bool }.

Record User : Type := mkUser { id : string; email : string }.

(** The object [{ user: ... }] a sign-in resolves to. *)
Record Session : Type := mkSession { user : User }.

Definition signInAdmin (email password : string) (service : t)
  : Outcome Session * t :=
  let attempt :=
    if String.eqb password "admin123" then
      (Returned {| user := {| id := "1";
                              email := or_else email "admin@example.com" |} |},
       {| isAuth := true |})
    else (Threw (Error "Invalid login credentials"), service) in
  match attempt with
  | (Returned session, service') => (Returned session, service')
  | (Threw (Error message), service') => (Threw (Error message), service')
  | (Threw NotAnError, service') =>
      (Threw (Error "Authentication failed"), service')
  end.

Definition signOut (service : t) : Outcome unit * t :=
  (Returned tt, {| isAuth := false |}).

Definition getUser (service : t) : Outcome (option User) * t :=
  if isAuth service then
    (Returned (Some {| id := "1"; email := "admin@example.com" |}), service)
  else (Returned None, service).

Definition isAuthenticated (service : t) : Outcome bool * t :=
  (Returned (isAuth service), service).

End AuthService.

(** ** Further inputs *)

Module Case.

(** A PDF by name and type whose bytes are an image. *)
Definition disguised : File.t :=
  {| File.name := "warranty.pdf";
     File.blob :=
       {| Blob.type := "application/pdf"; Blob.size := 1024;
          Blob.content := list_byte_of_string "GIF89a" ++ repeat x00 1018;
          Blob.buffer_ok := true; Blob.reader_ok := true |} |}.

(** The sample file on a device that fails once the whole file is read. *)
Definition unreadable : File.t :=
  {| File.name := "Product-TDS-sheet.pdf";
     File.blob :=
       {| Blob.type := "application/pdf"; Blob.size := 1024;
          Blob.content := Sample.bytes;
          Blob.buffer_ok := true; Blob.reader_ok := false |} |}.

(** The sample file under another name, with other bytes after the
    signature. *)
Definition lookalike : File.t :=
  {| File.name := "notes.txt";
     File.blob :=
       {| Blob.type := "application/pdf"; Blob.size := 1024;
          Blob.content := list_byte_of_string "%PDF" ++ repeat xff 1020;
          Blob.buffer_ok := true; Blob.reader_ok := false |} |}.

(** A store over storage without a snapshot. *)
Definition empty_storage : LocalStorage :=
  {| item := None; getItem_ok := true; setItem_ok := true |}.

Definition empty_world : World := new_DocumentService empty_storage.

(** A rename, and a later change of the required flag. *)
Definition rename : Partial.t :=
  {| Partial.id := None; Partial.name := Some "Data sheet";
     Partial.description := None; Partial.filename := None;
     Partial.url := None; Partial.size := None; Partial.type := None;
     Partial.required := None; Partial.products := None;
     Partial.productType := None |}.


(** A record whose inline reference has no comma. *)
Definition truncated_doc : Document.t :=
  {| Document.id := "doc_1700000000003_t1r2u3n4c";
     Document.name := "LEED Credit Guide";
     Document.description := "LEED Document";
     Document.filename := "leed.pdf";
     Document.url := "data:application/pdf;base64";
     Document.size := 4096;
     Document.type := LEED;
     Document.required := false;
     Document.products := [];
     Document.productType := "underlayment" |}.

Definition truncated_world : World :=
  new_DocumentService
    {| item := Some (Snapshot [truncated_doc]);
       getItem_ok := true; setItem_ok := true |}.

(** A network that answers every request with a blob the reader cannot
    read. *)
Definition broken_body : string -> Remote := fun _ =>
  body {| Blob.type := "application/pdf"; Blob.size := 0;
          Blob.content := []; Blob.buffer_ok := false;
          Blob.reader_ok := false |}.

(** A platform on which no file name reads as a date and [sort] keeps the
    order. *)
Definition no_dates : string -> option Z := fun _ => None.

Definition keep_order
    (compare : Document.t -> Document.t -> option Z)
    (docs : list Document.t) : list Document.t := docs.

End Case.

(** * Properties *)

(** ** Validator *)

Section Validator.

Import ValidatorSpec.

Implicit Type f : File.t.

Lemma invalid_inj (a b : string) : invalid a = invalid b -> a = b.
Proof. unfold invalid. intros H. injection H. auto. Qed.

Lemma max_size_value : MAX_SIZE = 52428800.
Proof. reflexivity. Qed.

(** The source's chain of early returns and the table of the specification
    compute the same result. *)
Lemma validatePDF_refines f : validatePDF f = validate f.
Proof.
  unfold validatePDF, validate, rules, first_failure.
  unfold mime_rule, max_rule, min_rule, signature_rule.
  unfold File.arrayBuffer, Blob.arrayBuffer, File.slice, Blob.slice.
  unfold File.buffer_ok, File.content, MAX_SIZE.
  destruct (String.eqb (File.type f) "application/pdf"); cbn [negb]; [|reflexivity].
  destruct (Z.gtb_spec (File.size f) (50 * 1024 * 1024)) as [Hgt|Hle];
    destruct (Z.leb_spec (File.size f) (50 * 1024 * 1024)); try lia;
    [reflexivity|].
  destruct (Z.ltb_spec (File.size f) 1024);
    destruct (Z.leb_spec 1024 (File.size f)); try lia; [reflexivity|].
  destruct (Blob.buffer_ok (File.blob f)); [|reflexivity].
  cbn [Nat.sub skipn].
  destruct (startsWith _ _); reflexivity.
Qed.

(** A file that is not declared as a PDF is turned away at the first rule. *)
Lemma validatePDF_not_pdf f :
  File.type f <> "application/pdf" ->
  validatePDF f = invalid "File must be a PDF document".
Proof.
  intros Hty. unfold validatePDF.
  destruct (String.eqb_spec (File.type f) "application/pdf") as [E|_];
    [contradiction|reflexivity].
Qed.

(** Past the first rule the declared type plays no part any more. *)
Lemma validatePDF_pdf f :
  File.type f = "application/pdf" ->
  validatePDF f =
    if File.size f >? MAX_SIZE then invalid "File size exceeds 50MB limit"
    else if File.size f <? 1024 then
      invalid "File is too small to be a valid PDF"
    else if File.buffer_ok f then
      if startsWith (fromCharCode (firstn 5 (File.content f))) "%PDF"
      then accepted
      else invalid "File does not appear to be a valid PDF"
    else invalid "Failed to read file".
Proof.
  intros Hty. unfold validatePDF. rewrite Hty.
  change (negb ("application/pdf" =? "application/pdf")%string) with false.
  cbv iota.
  destruct (File.size f >? MAX_SIZE); [reflexivity|].
  destruct (File.size f <? 1024); [reflexivity|].
  unfold File.arrayBuffer, Blob.arrayBuffer, File.slice, Blob.slice.
  unfold File.buffer_ok, File.content.
  destruct (Blob.buffer_ok (File.blob f)); [|reflexivity].
  cbn [Nat.sub skipn].
  destruct (startsWith _ _); reflexivity.
Qed.

Lemma prefix_cons (a b : ascii) (s1 s2 : string) :
  String.prefix (String a s1) (String b s2)
  = Ascii.eqb a b && String.prefix s1 s2.
Proof.
  cbn [String.prefix].
  destruct (ascii_dec a b) as [-> | Hne].
  - now rewrite Ascii.eqb_refl.
  - apply Ascii.eqb_neq in Hne. now rewrite Hne.
Qed.

Lemma fromCharCode_cons (b : byte) (bytes : list byte) :
  fromCharCode (b :: bytes) = String (ascii_of_byte b) (fromCharCode bytes).
Proof. reflexivity. Qed.

Lemma ascii_of_byte_eq (c : ascii) (b : byte) :
  c = ascii_of_byte b -> b = byte_of_ascii c.
Proof. intros ->. now rewrite byte_of_ascii_of_byte. Qed.

(** The text of the first five bytes starts with [%PDF] exactly when the
    first four bytes are 25 50 44 46 (hexadecimal). *)
Lemma signature_bytes (content : list byte) :
  startsWith (fromCharCode (firstn 5 content)) "%PDF" = true <->
  firstn 4 content = [x25; x50; x44; x46]%byte.
Proof.
  unfold startsWith.
  destruct content as [|b1 [|b2 [|b3 [|b4 rest]]]];
    cbn [firstn]; rewrite ?fromCharCode_cons;
    try (split; [cbn [fromCharCode string_of_list_byte List.map
                      string_of_list_ascii];
                 rewrite ?prefix_cons, ?andb_true_iff;
                 cbn [String.prefix]; intuition discriminate
                | discriminate]).
  rewrite !prefix_cons.
  replace (String.prefix EmptyString (fromCharCode (firstn 1 rest)))
    with true by (now destruct (fromCharCode (firstn 1 rest))).
  rewrite andb_true_r, !andb_true_iff, !Ascii.eqb_eq.
  split.
  - intros (H1 & H2 & H3 & H4).
    apply ascii_of_byte_eq in H1, H2, H3, H4. subst. reflexivity.
  - intros H. injection H as -> -> -> ->. repeat split.
Qed.

End Validator.

(** C1: [validatePDF] applies its rules in the fixed order declared MIME
    type, maximum size, minimum size, content signature, and the first rule
    that fails gives the one rejection reason: the method computes what the
    ordered rule table of the specification computes, each reason is given
    exactly when all earlier rules pass, and a file whose declared type is
    not [application/pdf] is rejected as not a PDF whatever its size, its
    bytes and the outcome of reading them. *)
Theorem C1_validate_first_failing_rule (f : File.t) :
  validatePDF f = ValidatorSpec.validate f
  /\ (File.type f <> "application/pdf" ->
      validatePDF f = invalid "File must be a PDF document")
  /\ (File.type f = "application/pdf" -> File.size f > MAX_SIZE ->
      validatePDF f = invalid "File size exceeds 50MB limit")
  /\ (File.type f = "application/pdf" -> File.size f <= MAX_SIZE ->
      File.size f < 1024 ->
      validatePDF f = invalid "File is too small to be a valid PDF")
  /\ (File.type f = "application/pdf" -> 1024 <= File.size f <= MAX_SIZE ->
      File.buffer_ok f = false ->
      validatePDF f = invalid "Failed to read file")
  /\ (File.type f = "application/pdf" -> 1024 <= File.size f <= MAX_SIZE ->
      File.buffer_ok f = true ->
      startsWith (fromCharCode (firstn 5 (File.content f))) "%PDF" = false ->
      validatePDF f = invalid "File does not appear to be a valid PDF")
  /\ (File.type f = "application/pdf" -> 1024 <= File.size f <= MAX_SIZE ->
      File.buffer_ok f = true ->
      startsWith (fromCharCode (firstn 5 (File.content f))) "%PDF" = true ->
      validatePDF f = accepted).
Proof.
  split; [apply validatePDF_refines|].
  split; [apply validatePDF_not_pdf|].
  repeat split; intros Hty; rewrite (validatePDF_pdf f Hty).
  - intros Hgt. destruct (Z.gtb_spec (File.size f) MAX_SIZE); [reflexivity|lia].
  - intros Hle Hlt.
    destruct (Z.gtb_spec (File.size f) MAX_SIZE); [lia|].
    destruct (Z.ltb_spec (File.size f) 1024); [reflexivity|lia].
  - intros [Hlo Hhi] Hbuf.
    destruct (Z.gtb_spec (File.size f) MAX_SIZE); [lia|].
    destruct (Z.ltb_spec (File.size f) 1024); [lia|].
    now rewrite Hbuf.
  - intros [Hlo Hhi] Hbuf Hsig.
    destruct (Z.gtb_spec (File.size f) MAX_SIZE); [lia|].
    destruct (Z.ltb_spec (File.size f) 1024); [lia|].
    now rewrite Hbuf, Hsig.
  - intros [Hlo Hhi] Hbuf Hsig.
    destruct (Z.gtb_spec (File.size f) MAX_SIZE); [lia|].
    destruct (Z.ltb_spec (File.size f) 1024); [lia|].
    now rewrite Hbuf, Hsig.
Qed.

(** C2: for a file declared as [application/pdf], [validatePDF] rejects
    with the too-large reason exactly when the size is above 50 MiB
    (52428800 bytes) and with the too-small reason exactly when the size is
    below 1 KiB (1024 bytes); a file of exactly 50 MiB and a file of exactly
    1 KiB get neither of the two reasons. *)
Theorem C2_validate_size_bounds (f : File.t) :
  File.type f = "application/pdf" ->
  (validatePDF f = invalid "File size exceeds 50MB limit"
   <-> File.size f > 52428800)
  /\ (validatePDF f = invalid "File is too small to be a valid PDF"
      <-> File.size f < 1024)
  /\ (File.size f = 52428800 \/ File.size f = 1024 ->
      validatePDF f <> invalid "File size exceeds 50MB limit"
      /\ validatePDF f <> invalid "File is too small to be a valid PDF").
Proof.
  intros Hty. rewrite (validatePDF_pdf f Hty), max_size_value.
  destruct (Z.gtb_spec (File.size f) 52428800) as [Hgt|Hle].
  { repeat split; try lia; try discriminate. }
  destruct (Z.ltb_spec (File.size f) 1024) as [Hlt|Hge].
  { repeat split; try lia; try discriminate. }
  assert (Hstage :
    forall msg,
      (if File.buffer_ok f
       then if startsWith (fromCharCode (firstn 5 (File.content f))) "%PDF"
            then accepted
            else invalid "File does not appear to be a valid PDF"
       else invalid "Failed to read file") = invalid msg ->
      msg = "File does not appear to be a valid PDF"
      \/ msg = "Failed to read file").
  { intros msg. destruct (File.buffer_ok f); [destruct (startsWith _ _)|];
      intros H; try discriminate; apply invalid_inj in H; auto. }
  repeat split; try lia;
    intros Hres; apply Hstage in Hres; destruct Hres; discriminate.
Qed.

(** C3: for a file that passes the MIME and size rules, [validatePDF]
    rejects with the bad-signature reason exactly when the bytes were read
    and the text of the first five bytes does not start with [%PDF] (that
    is, the first four bytes are not 25 50 44 46); when reading the bytes
    fails the reason is the separate one for an unreadable file. *)
Theorem C3_validate_signature (f : File.t) :
  File.type f = "application/pdf" ->
  1024 <= File.size f <= 52428800 ->
  (validatePDF f = invalid "File does not appear to be a valid PDF"
   <-> File.buffer_ok f = true
       /\ firstn 4 (File.content f) <> [x25; x50; x44; x46]%byte)
  /\ (validatePDF f = accepted
      <-> File.buffer_ok f = true
          /\ firstn 4 (File.content f) = [x25; x50; x44; x46]%byte)
  /\ (validatePDF f = invalid "Failed to read file"
      <-> File.buffer_ok f = false)
  /\ invalid "Failed to read file"
     <> invalid "File does not appear to be a valid PDF".
Proof.
  intros Hty [Hlo Hhi]. rewrite (validatePDF_pdf f Hty), max_size_value.
  destruct (Z.gtb_spec (File.size f) 52428800); [lia|].
  destruct (Z.ltb_spec (File.size f) 1024); [lia|].
  pose proof (signature_bytes (File.content f)) as Hsig.
  destruct (File.buffer_ok f).
  - destruct (startsWith _ _).
    + assert (Hb : firstn 4 (File.content f) = [x25; x50; x44; x46]%byte)
        by now apply Hsig.
      repeat split; try discriminate; tauto.
    + assert (Hb : firstn 4 (File.content f) <> [x25; x50; x44; x46]%byte).
      { intros E. apply Hsig in E. discriminate. }
      repeat split; try discriminate; tauto.
  - repeat split; try discriminate; intros [E _]; discriminate.
Qed.

(** ** Classifier *)

Section Classifier.

Import ClassifierSpec.

(** The chain of [if]s of the source is the first-match search through
    the ordered table. *)
Lemma detectDocumentType_refines (filename : string) :
  detectDocumentType filename = type_of filename.
Proof.
  unfold detectDocumentType, type_of.
  generalize (toLowerCase filename) as lower. intros lower.
  cbv [table first_match matches existsb].
  rewrite !orb_false_r.
  repeat match goal with
         | |- context [includes lower ?k] =>
             destruct (includes lower k); cbn [orb]; try reflexivity
         end.
Qed.

(** Every type has a label that is not empty, so the stripped file name
    is never the result. *)
Lemma extractDocumentName_label (filename : string) (type : DocumentType) :
  extractDocumentName filename type = label type.
Proof. destruct type; reflexivity. Qed.

End Classifier.

(** C4: [classify] lower-cases the file name and gives the type of the
    first row of the ordered keyword table that matches (tds, esr, msds,
    leed, installation, warranty, acoustic, spec with their alternatives),
    [TDS] when no row matches, together with the fixed label of that type;
    the three file names of the specification classify as stated. *)
Theorem C4_classify_first_match (filename : string) :
  classify filename
  = (ClassifierSpec.type_of filename,
     ClassifierSpec.label (ClassifierSpec.type_of filename))
  /\ classify "Product-TDS-sheet.pdf" = (TDS, "Technical Data Sheet")
  /\ classify "install-guide-v2.PDF" = (Installation, "Installation Guide")
  /\ classify "randomfile.pdf" = (TDS, "Technical Data Sheet").
Proof.
  split; [|repeat split; vm_compute; reflexivity].
  unfold classify.
  now rewrite extractDocumentName_label, detectDocumentType_refines.
Qed.

(** ** Document store *)

Section Store.

Implicit Type w : World.

(** Saving never fails for the caller and never touches the service. *)
Lemma saveToLocalStorage_run w :
  saveToLocalStorage w
  = (Returned tt,
     if setItem_ok (localStorage w) then
       {| service := service w;
          localStorage :=
            {| item := Some (Snapshot
                               (snd <$> map_to_list (documents (service w))));
               getItem_ok := getItem_ok (localStorage w);
               setItem_ok := setItem_ok (localStorage w) |};
          console := console w; progress := progress w |}
     else
       {| service := service w; localStorage := localStorage w;
          console := console w ++ ["Error saving documents to storage:"];
          progress := progress w |}).
Proof.
  unfold saveToLocalStorage, try_catch, bind, documents_values, setItem.
  cbn. destruct (setItem_ok (localStorage w)); reflexivity.
Qed.

Lemma saveToLocalStorage_returns w :
  fst (saveToLocalStorage w) = Returned tt.
Proof. now rewrite saveToLocalStorage_run. Qed.

Lemma saveToLocalStorage_service w :
  service (snd (saveToLocalStorage w)) = service w.
Proof.
  rewrite saveToLocalStorage_run. cbn.
  destruct (setItem_ok (localStorage w)); reflexivity.
Qed.

Lemma updateDocument_present w id updates existing :
  documents (service w) !! id = Some existing ->
  updateDocument id updates w
  = saveToLocalStorage
      {| service :=
           {| documents :=
                <[id := updated existing updates]> (documents (service w));
              nextId := nextId (service w) |};
         localStorage := localStorage w;
         console := console w; progress := progress w |}.
Proof.
  intros Hget. unfold updateDocument, bind, documents_get, documents_set.
  now rewrite Hget.
Qed.

Lemma updateDocument_absent w id updates :
  documents (service w) !! id = None ->
  updateDocument id updates w = (Threw (Error "Document not found"), w).
Proof.
  intros Hget. unfold updateDocument, bind, documents_get.
  now rewrite Hget.
Qed.

Lemma deleteDocument_present w id :
  is_Some (documents (service w) !! id) ->
  deleteDocument id w
  = saveToLocalStorage
      {| service :=
           {| documents := delete id (documents (service w));
              nextId := nextId (service w) |};
         localStorage := localStorage w;
         console := console w; progress := progress w |}.
Proof.
  intros Hget. unfold deleteDocument, bind, documents_has, documents_delete.
  now rewrite bool_decide_eq_true_2.
Qed.

Lemma deleteDocument_absent w id :
  documents (service w) !! id = None ->
  deleteDocument id w = (Threw (Error "Document not found"), w).
Proof.
  intros Hget. unfold deleteDocument, bind, documents_has.
  rewrite bool_decide_eq_false_2; [reflexivity|].
  rewrite Hget. intros [? ?]. discriminate.
Qed.

End Store.


(** C6: [deleteDocument] on an identifier that is absent throws the
    not-found error and changes nothing; so after a [deleteDocument] that
    succeeded, the same call again throws the not-found error and the state
    after both calls is the state after the first. *)
Theorem C6_delete_absent_fails_unchanged (w : World) (id : string) :
  (documents (service w) !! id = None ->
   deleteDocument id w = (Threw (Error "Document not found"), w))
  /\ (is_Some (documents (service w) !! id) ->
      exists w1 : World,
        deleteDocument id w = (Returned tt, w1)
        /\ documents (service w1) !! id = None
        /\ deleteDocument id w1 = (Threw (Error "Document not found"), w1)).
Proof.
  split; [apply deleteDocument_absent|].
  intros Hget. rewrite (deleteDocument_present w id Hget).
  eexists. split.
  { rewrite surjective_pairing at 1.
    now rewrite saveToLocalStorage_returns. }
  assert (Hgone : documents (service (snd (saveToLocalStorage
            {| service :=
                 {| documents := delete id (documents (service w));
                    nextId := nextId (service w) |};
               localStorage := localStorage w;
               console := console w; progress := progress w |}))) !! id = None).
  { rewrite saveToLocalStorage_service. cbn [service documents].
    apply lookup_delete_eq. }
  split; [exact Hgone|].
  now apply deleteDocument_absent.
Qed.

(** ** Data URLs *)

Section DataURL.

Lemma split_comma_free (s : string) :
  comma_free s = true -> split_comma s = [s].
Proof.
  induction s as [|c r IH]; cbn [comma_free split_comma]; [reflexivity|].
  intros H. apply andb_true_iff in H as [Hc Hr].
  apply negb_true_iff in Hc. rewrite Hc, (IH Hr). reflexivity.
Qed.

Lemma split_comma_app (a b : string) :
  comma_free a = true ->
  split_comma (a ++ "," ++ b) = a :: split_comma b.
Proof.
  induction a as [|c r IH]; cbn [comma_free]; intros H.
  - reflexivity.
  - apply andb_true_iff in H as [Hc Hr]. apply negb_true_iff in Hc.
    change (String c r ++ "," ++ b) with (String c (r ++ "," ++ b)).
    cbn [split_comma]. rewrite Hc, (IH Hr). reflexivity.
Qed.

Lemma append_assoc (a b c : string) : (a ++ b) ++ c = a ++ (b ++ c).
Proof.
  induction a as [|x r IH]; [reflexivity|].
  change ((String x r ++ b) ++ c) with (String x ((r ++ b) ++ c)).
  now rewrite IH.
Qed.

Lemma comma_free_app (a b : string) :
  comma_free (a ++ b) = comma_free a && comma_free b.
Proof.
  induction a as [|c r IH]; [reflexivity|].
  change (String c r ++ b) with (String c (r ++ b)).
  cbn [comma_free]. now rewrite IH, andb_assoc.
Qed.

Lemma digit_not_comma (n : N) : Ascii.eqb (Base64.digit n) "," = false.
Proof.
  unfold Base64.digit.
  assert (Hall : Forall (fun c => Ascii.eqb c "," = false)
                   (Base64.pad :: Base64.alphabet)).
  { repeat constructor. }
  apply (proj1 (List.Forall_forall _ _) Hall).
  destruct (nth_in_or_default (N.to_nat n) Base64.alphabet Base64.pad)
    as [Hin | ->].
  - right. exact Hin.
  - left. reflexivity.
Qed.

Lemma encode_comma_free_upto (n : nat) :
  forall bytes : list byte,
    (List.length bytes <= n)%nat -> comma_free (Base64.encode bytes) = true.
Proof.
  induction n as [|n IH]; intros bytes Hlen.
  - destruct bytes; [reflexivity|cbn in Hlen; lia].
  - destruct bytes as [|a [|b [|c rest]]];
      cbn [Base64.encode comma_free];
      rewrite ?digit_not_comma; cbn [negb andb]; try reflexivity.
    apply IH. cbn [List.length] in Hlen. lia.
Qed.

Lemma encode_comma_free (bytes : list byte) :
  comma_free (Base64.encode bytes) = true.
Proof. apply (encode_comma_free_upto (List.length bytes)). lia. Qed.

(** The second piece of the data URL of a blob is its Base64 text, when
    the declared type has no comma in it. *)
Lemma dataURL_second (b : Blob.t) :
  comma_free (Blob.type b) = true ->
  second (split_comma (dataURL b)) = Some (Base64.encode (Blob.content b)).
Proof.
  intros Hty. unfold dataURL.
  replace ("data:" ++ Blob.type b ++ ";base64," ++ Base64.encode (Blob.content b))
    with (("data:" ++ Blob.type b ++ ";base64") ++ "," ++ Base64.encode (Blob.content b)).
  - rewrite split_comma_app.
    + now rewrite (split_comma_free _ (encode_comma_free _)).
    + rewrite !comma_free_app, Hty. reflexivity.
  - rewrite !append_assoc. reflexivity.
Qed.

End DataURL.

(** ** Upload *)

Section Upload.

Implicit Type w : World.

Lemma validatePDF_valid_type (f : File.t) :
  valid (validatePDF f) = true -> File.type f = "application/pdf".
Proof.
  unfold validatePDF.
  destruct (String.eqb_spec (File.type f) "application/pdf") as [E|_];
    [trivial|discriminate].
Qed.

Lemma readAsDataURL_pdf (f : File.t) :
  File.type f = "application/pdf" ->
  File.reader_ok f = true ->
  readAsDataURL (File.blob f)
  = ret (Some (Base64.encode (File.content f))).
Proof.
  unfold File.type, File.reader_ok, File.content, readAsDataURL.
  intros Hty ->. rewrite dataURL_second; [reflexivity|].
  now rewrite Hty.
Qed.

(** An accepted file whose bytes can be read is stored under a fresh
    identifier and returned. *)
Lemma uploadDocument_accepted (file : File.t) (productType : string)
    (onProgress : bool) (now : Z) (suffix : string) w :
  valid (validatePDF file) = true ->
  File.reader_ok file = true ->
  exists w' : World,
    uploadDocument file productType onProgress now suffix w
    = (Returned (new_document file productType now suffix
                   (Some (Base64.encode (File.content file)))), w')
    /\ service w'
       = {| documents :=
              <[fresh_id now suffix :=
                  new_document file productType now suffix
                    (Some (Base64.encode (File.content file)))]>
                (documents (service w));
            nextId := nextId (service w) |}.
Proof.
  intros Hvalid Hread. unfold uploadDocument.
  rewrite Hvalid. cbn [negb].
  rewrite (readAsDataURL_pdf file (validatePDF_valid_type file Hvalid) Hread).
  unfold try_catch, bind, ret, report, documents_set.
  rewrite saveToLocalStorage_run.
  destruct onProgress;
    cbn [service localStorage console progress setItem_ok];
    destruct (setItem_ok (localStorage w));
    (eexists; split; reflexivity).
Qed.

Lemma uploadDocument_rejected (file : File.t) (productType : string)
    (onProgress : bool) (now : Z) (suffix : string) w :
  valid (validatePDF file) = false ->
  uploadDocument file productType onProgress now suffix w
  = (Threw (Error (or_else (default EmptyString (error (validatePDF file)))
                           "Invalid PDF file")), w).
Proof. intros Hvalid. unfold uploadDocument. now rewrite Hvalid. Qed.

Lemma uploadDocument_unreadable (file : File.t) (productType : string)
    (onProgress : bool) (now : Z) (suffix : string) w :
  valid (validatePDF file) = true ->
  File.reader_ok file = false ->
  fst (uploadDocument file productType onProgress now suffix w)
  = Threw (Error "Failed to upload document")
  /\ service (snd (uploadDocument file productType onProgress now suffix w))
     = service w.
Proof.
  intros Hvalid Hread. unfold uploadDocument.
  rewrite Hvalid. cbn [negb].
  unfold readAsDataURL. unfold File.reader_ok in Hread. rewrite Hread.
  unfold try_catch, bind, throw, report, console_error.
  destruct onProgress; split; reflexivity.
Qed.

(** Whatever the inputs, an upload leaves the map alone or adds the
    returned record under its own [id]. *)
Lemma uploadDocument_service (file : File.t) (productType : string)
    (onProgress : bool) (now : Z) (suffix : string) w :
  service (snd (uploadDocument file productType onProgress now suffix w))
  = service w
  \/ exists doc : Document.t,
       service (snd (uploadDocument file productType onProgress now suffix w))
       = {| documents := <[Document.id doc := doc]> (documents (service w));
            nextId := nextId (service w) |}.
Proof.
  destruct (valid (validatePDF file)) eqn:Hvalid.
  - destruct (File.reader_ok file) eqn:Hread.
    + right.
      destruct (uploadDocument_accepted file productType onProgress now
                  suffix w Hvalid Hread) as (w' & Hrun & Hsvc).
      rewrite Hrun. cbn [snd]. rewrite Hsvc.
      exists (new_document file productType now suffix
                (Some (Base64.encode (File.content file)))).
      reflexivity.
    + left. now apply uploadDocument_unreadable.
  - left. now rewrite uploadDocument_rejected.
Qed.

End Upload.

(** C9: for a file the validator accepts (and whose bytes the reader can
    deliver), [uploadDocument] returns a record, and [getDocument] of the
    returned identifier then yields that very record; its name, description,
    file name, content reference, size, type, product category and required
    flag are the ones derived from the caller's file and category. *)
Theorem C9_create_then_get (file : File.t) (productType : string)
    (onProgress : bool) (now : Z) (suffix : string) (w : World) :
  valid (validatePDF file) = true ->
  File.reader_ok file = true ->
  exists (doc : Document.t) (w' : World),
    uploadDocument file productType onProgress now suffix w
    = (Returned doc, w')
    /\ getDocument (Document.id doc) w' = (Returned (Some doc), w')
    /\ Document.type doc = fst (classify (File.name file))
    /\ Document.name doc = snd (classify (File.name file))
    /\ Document.description doc
       = type_literal (fst (classify (File.name file))) ++ " Document"
    /\ Document.filename doc = File.name file
    /\ Document.url doc
       = "data:application/pdf;base64," ++ Base64.encode (File.content file)
    /\ Document.size doc = File.size file
    /\ Document.productType doc = productType
    /\ Document.required doc = false.
Proof.
  intros Hvalid Hread.
  destruct (uploadDocument_accepted file productType onProgress now suffix w
              Hvalid Hread) as (w' & Hrun & Hsvc).
  eexists _, w'. split; [exact Hrun|].
  split.
  - unfold getDocument, bind, documents_get, ret.
    rewrite Hsvc. cbn [documents new_document Document.id].
    now rewrite lookup_insert_eq.
  - repeat split.
Qed.

(** ** Export *)

Section ExportPayload.

Implicit Type w : World.
Variable network : string -> Remote.

Lemma export_absent w id :
  documents (service w) !! id = None ->
  exportDocumentAsBase64 network id w = (Returned null, w).
Proof.
  intros Hget. unfold exportDocumentAsBase64, bind, documents_get.
  now rewrite Hget.
Qed.

Lemma export_no_url w id doc :
  documents (service w) !! id = Some doc ->
  Document.url doc = EmptyString ->
  exportDocumentAsBase64 network id w = (Returned null, w).
Proof.
  intros Hget Hurl. unfold exportDocumentAsBase64, bind, documents_get.
  now rewrite Hget, Hurl.
Qed.

Lemma export_inline w id doc :
  documents (service w) !! id = Some doc ->
  Document.url doc <> EmptyString ->
  startsWith (Document.url doc) "data:" = true ->
  exportDocumentAsBase64 network id w
  = (Returned (payload_of (second (split_comma (Document.url doc)))), w).
Proof.
  intros Hget Hurl Hdata.
  unfold exportDocumentAsBase64, bind, documents_get, try_catch, ret.
  rewrite Hget.
  destruct (String.eqb_spec (Document.url doc) EmptyString) as [E|_];
    [contradiction|].
  now rewrite Hdata.
Qed.

Lemma export_remote w id doc :
  documents (service w) !! id = Some doc ->
  Document.url doc <> EmptyString ->
  startsWith (Document.url doc) "data:" = false ->
  exportDocumentAsBase64 network id w
  = match network (Document.url doc) with
    | body blob =>
        if Blob.reader_ok blob
        then (Returned (payload_of (second (split_comma (dataURL blob)))), w)
        else (Threw NotAnError, w)
    | _ =>
        (Returned null,
         {| service := service w; localStorage := localStorage w;
            console := console w ++ ["Error exporting document:"];
            progress := progress w |})
    end.
Proof.
  intros Hget Hurl Hdata.
  unfold exportDocumentAsBase64, bind, documents_get, try_catch, ret.
  rewrite Hget.
  destruct (String.eqb_spec (Document.url doc) EmptyString) as [E|_];
    [contradiction|].
  rewrite Hdata. unfold fetch_blob, readAsDataURL, throw, ret, console_error.
  destruct (network (Document.url doc)) as [| |blob]; try reflexivity.
  destruct (Blob.reader_ok blob); reflexivity.
Qed.

Lemma startsWith_data (rest : string) :
  startsWith ("data:" ++ rest) "data:" = true.
Proof.
  unfold startsWith. change ("data:" ++ rest)
    with (String "d" (String "a" (String "t" (String "a" (String ":" rest))))).
  rewrite !prefix_cons. cbn. now destruct rest.
Qed.

(** An inline reference [data:<mime>;base64,<payload>] is answered with its
    payload. *)
Lemma export_base64_url w id doc (mime payload : string) :
  documents (service w) !! id = Some doc ->
  Document.url doc = "data:" ++ mime ++ ";base64," ++ payload ->
  comma_free mime = true -> comma_free payload = true ->
  exportDocumentAsBase64 network id w = (Returned (text payload), w).
Proof.
  intros Hget Hurl Hmime Hpay.
  rewrite (export_inline w id doc Hget).
  - rewrite Hurl.
    replace ("data:" ++ mime ++ ";base64," ++ payload)
      with (("data:" ++ mime ++ ";base64") ++ "," ++ payload)
      by (rewrite !append_assoc; reflexivity).
    rewrite split_comma_app.
    + now rewrite (split_comma_free payload Hpay).
    + rewrite !comma_free_app, Hmime. reflexivity.
  - rewrite Hurl. discriminate.
  - rewrite Hurl. apply startsWith_data.
Qed.

(** What [uploadDocument] stored is exported as the Base64 text of the
    uploaded bytes. *)
Lemma export_after_upload (file : File.t) (productType : string)
    (onProgress : bool) (now : Z) (suffix : string) w :
  valid (validatePDF file) = true ->
  File.reader_ok file = true ->
  exists (doc : Document.t) (w' : World),
    uploadDocument file productType onProgress now suffix w
    = (Returned doc, w')
    /\ exportDocumentAsBase64 network (Document.id doc) w'
       = (Returned (text (Base64.encode (File.content file))), w').
Proof.
  intros Hvalid Hread.
  destruct (uploadDocument_accepted file productType onProgress now suffix w
              Hvalid Hread) as (w' & Hrun & Hsvc).
  eexists _, w'. split; [exact Hrun|].
  apply (export_base64_url w' _
           (new_document file productType now suffix
              (Some (Base64.encode (File.content file))))
           "application/pdf").
  - rewrite Hsvc. cbn [documents new_document Document.id].
    apply lookup_insert_eq.
  - reflexivity.
  - reflexivity.
  - apply encode_comma_free.
Qed.

(** Exporting never changes the service. *)
Lemma export_service w id :
  service (snd (exportDocumentAsBase64 network id w)) = service w.
Proof.
  destruct (documents (service w) !! id) as [doc|] eqn:Hget;
    [|now rewrite export_absent].
  destruct (String.eqb_spec (Document.url doc) EmptyString) as [E|Hurl];
    [now rewrite (export_no_url w id doc)|].
  destruct (startsWith (Document.url doc) "data:") eqn:Hdata;
    [now rewrite (export_inline w id doc)|].
  rewrite (export_remote w id doc Hget Hurl Hdata).
  destruct (network (Document.url doc)) as [| |blob]; try reflexivity.
  destruct (Blob.reader_ok blob); reflexivity.
Qed.

End ExportPayload.

(** The outcomes of [exportDocumentAsBase64] on the references the service
    is written for: [null], without throwing, when the record is absent, when
    its content reference is empty, and when [fetch] or [blob] rejects; the
    payload after the comma for an inline reference of the form
    [data:<mime>;base64,<payload>]; the Base64 text of the fetched bytes for
    a remote reference whose blob the reader can read. *)
Lemma export_outcomes_on_wellformed (network : string -> Remote) (w : World)
    (id : string) :
  (documents (service w) !! id = None ->
   exportDocumentAsBase64 network id w = (Returned null, w))
  /\ (forall doc : Document.t,
        documents (service w) !! id = Some doc ->
        Document.url doc = EmptyString ->
        exportDocumentAsBase64 network id w = (Returned null, w))
  /\ (forall (doc : Document.t) (mime payload : string),
        documents (service w) !! id = Some doc ->
        Document.url doc = "data:" ++ mime ++ ";base64," ++ payload ->
        comma_free mime = true -> comma_free payload = true ->
        exportDocumentAsBase64 network id w = (Returned (text payload), w))
  /\ (forall doc : Document.t,
        documents (service w) !! id = Some doc ->
        Document.url doc <> EmptyString ->
        startsWith (Document.url doc) "data:" = false ->
        network (Document.url doc) = fetch_rejects
        \/ network (Document.url doc) = blob_rejects ->
        fst (exportDocumentAsBase64 network id w) = Returned null
        /\ service (snd (exportDocumentAsBase64 network id w)) = service w)
  /\ (forall (doc : Document.t) (blob : Blob.t),
        documents (service w) !! id = Some doc ->
        Document.url doc <> EmptyString ->
        startsWith (Document.url doc) "data:" = false ->
        network (Document.url doc) = body blob ->
        Blob.reader_ok blob = true ->
        comma_free (Blob.type blob) = true ->
        exportDocumentAsBase64 network id w
        = (Returned (text (Base64.encode (Blob.content blob))), w)).
Proof.
  split; [apply export_absent|].
  split; [apply export_no_url|].
  split; [|split].
  - intros doc mime payload. apply export_base64_url.
  - intros doc Hget Hurl Hdata Hnet.
    split; [|apply export_service].
    rewrite (export_remote network w id doc Hget Hurl Hdata).
    destruct Hnet as [-> | ->]; reflexivity.
  - intros doc blob Hget Hurl Hdata Hnet Hread Hty.
    rewrite (export_remote network w id doc Hget Hurl Hdata), Hnet, Hread.
    now rewrite (dataURL_second blob Hty).
Qed.

(** C8: the specification has [exportDocumentAsBase64] answer with the
    payload or with [null] and never throw.  On a record with a remote
    reference whose fetched blob the reader cannot read, it rejects with the
    reader's event: the [try] block returns the reader's promise without
    [await], so the [catch] that answers [null] is not reached; nothing is
    logged.  ([uploadDocument] awaits the same kind of read inside its [try]
    and does catch the failure.) *)
Theorem C8_export_rejects_on_unreadable_blob :
  reachable Sample.world
  /\ documents (service Sample.world) !! Document.id Sample.remote_doc
     = Some Sample.remote_doc
  /\ Document.url Sample.remote_doc = "https://example.com/esr-1234.pdf"
  /\ (exists blob : Blob.t,
        Case.broken_body (Document.url Sample.remote_doc) = body blob
        /\ Blob.reader_ok blob = false)
  /\ exportDocumentAsBase64 Case.broken_body (Document.id Sample.remote_doc)
       Sample.world
     = (Threw NotAnError, Sample.world)
  /\ (forall result : Payload,
        fst (exportDocumentAsBase64 Case.broken_body
               (Document.id Sample.remote_doc) Sample.world)
        <> Returned result).
Proof.
  assert (Hget : documents (service Sample.world)
                   !! Document.id Sample.remote_doc = Some Sample.remote_doc).
  { vm_compute. reflexivity. }
  assert (Hrun : exportDocumentAsBase64 Case.broken_body
                   (Document.id Sample.remote_doc) Sample.world
                 = (Threw NotAnError, Sample.world)).
  { rewrite (export_remote Case.broken_body Sample.world _ Sample.remote_doc
               Hget); [reflexivity|discriminate|reflexivity]. }
  split; [apply (reachable_new Sample.storage)|].
  split; [exact Hget|]. split; [reflexivity|].
  split; [eexists; split; reflexivity|].
  split; [exact Hrun|].
  intros result. rewrite Hrun. discriminate.
Qed.

(** ** The key of an entry is the [id] of its record *)

Section KeyedById.

Implicit Type w : World.

Lemma keyed_same_service w w' :
  service w' = service w -> keyed_by_id w -> keyed_by_id w'.
Proof. unfold keyed_by_id. intros ->. trivial. Qed.

Lemma keyed_insert w w' (doc : Document.t) :
  documents (service w')
  = <[Document.id doc := doc]> (documents (service w)) ->
  keyed_by_id w -> keyed_by_id w'.
Proof.
  unfold keyed_by_id. intros -> Hw key d.
  destruct (decide (Document.id doc = key)) as [<- | Hne].
  - rewrite lookup_insert_eq. now intros [= <-].
  - rewrite lookup_insert_ne by exact Hne. apply Hw.
Qed.

Lemma keyed_delete w w' (id : string) :
  documents (service w') = delete id (documents (service w)) ->
  keyed_by_id w -> keyed_by_id w'.
Proof.
  unfold keyed_by_id. intros -> Hw key d Hget.
  apply lookup_delete_Some in Hget as [_ Hget]. now apply Hw.
Qed.

Lemma forEach_set_returns (docs : list Document.t) w :
  fst (forEach docs (fun doc => documents_set (Document.id doc) doc) w)
  = Returned tt.
Proof.
  revert w. induction docs as [|doc docs IH]; intros w; [reflexivity|].
  cbn [forEach]. unfold bind at 1. unfold documents_set at 1. apply IH.
Qed.

Lemma forEach_set_keyed (docs : list Document.t) w :
  keyed_by_id w ->
  keyed_by_id
    (snd (forEach docs (fun doc => documents_set (Document.id doc) doc) w)).
Proof.
  revert w. induction docs as [|doc docs IH]; intros w Hw; [exact Hw|].
  cbn [forEach]. unfold bind at 1. unfold documents_set at 1.
  apply IH. eapply keyed_insert; [|exact Hw]. reflexivity.
Qed.

Lemma loadFromLocalStorage_returns w :
  fst (loadFromLocalStorage w) = Returned tt.
Proof.
  unfold loadFromLocalStorage, try_catch, bind, getItem.
  destruct (getItem_ok (localStorage w)); [|reflexivity].
  destruct (item (localStorage w)) as [[docs|[|c raw]]|]; cbn;
    try reflexivity.
  pose proof (forEach_set_returns docs w) as Hret.
  destruct (forEach docs _ w) as [[[]|e] w']; cbn in Hret;
    [reflexivity|discriminate].
Qed.

Lemma loadFromLocalStorage_keyed w :
  keyed_by_id w -> keyed_by_id (snd (loadFromLocalStorage w)).
Proof.
  intros Hw. unfold loadFromLocalStorage, try_catch, bind, getItem.
  destruct (getItem_ok (localStorage w)); [|exact Hw].
  destruct (item (localStorage w)) as [[docs|[|c raw]]|]; cbn;
    try exact Hw.
  pose proof (forEach_set_returns docs w) as Hret.
  pose proof (forEach_set_keyed docs w Hw) as Hkeyed.
  destruct (forEach docs _ w) as [[[]|e] w']; cbn in Hret;
    [exact Hkeyed|discriminate].
Qed.

Lemma new_DocumentService_keyed (storage : LocalStorage) :
  keyed_by_id (new_DocumentService storage).
Proof.
  apply loadFromLocalStorage_keyed.
  intros key doc. cbn [service documents]. now rewrite lookup_empty.
Qed.

Lemma updateDocument_keyed w id updates :
  keyed_by_id w -> keyed_by_id (snd (updateDocument id updates w)).
Proof.
  intros Hw.
  destruct (documents (service w) !! id) as [existing|] eqn:Hget.
  - rewrite (updateDocument_present w id updates existing Hget).
    eapply (keyed_insert w _ (updated existing updates)); [|exact Hw].
    rewrite saveToLocalStorage_service. cbn [service documents].
    now rewrite (Hw id existing Hget).
  - now rewrite updateDocument_absent.
Qed.

Lemma deleteDocument_keyed w id :
  keyed_by_id w -> keyed_by_id (snd (deleteDocument id w)).
Proof.
  intros Hw.
  destruct (documents (service w) !! id) as [existing|] eqn:Hget.
  - rewrite deleteDocument_present by (rewrite Hget; eauto).
    eapply (keyed_delete w _ id); [|exact Hw].
    now rewrite saveToLocalStorage_service.
  - now rewrite deleteDocument_absent.
Qed.

Lemma uploadDocument_keyed (file : File.t) (productType : string)
    (onProgress : bool) (now : Z) (suffix : string) w :
  keyed_by_id w ->
  keyed_by_id
    (snd (uploadDocument file productType onProgress now suffix w)).
Proof.
  intros Hw.
  destruct (uploadDocument_service file productType onProgress now suffix w)
    as [Hsame | [doc Hadd]].
  - now apply (keyed_same_service w).
  - apply (keyed_insert w _ doc); [|exact Hw]. now rewrite Hadd.
Qed.

Lemma Step_keyed w w' : Step w w' -> keyed_by_id w -> keyed_by_id w'.
Proof.
  intros [w0 file productType onProgress now suffix
         | w0 id updates | w0 id | w0 network id | w0 storage] Hw.
  - now apply uploadDocument_keyed.
  - now apply updateDocument_keyed.
  - now apply deleteDocument_keyed.
  - apply (keyed_same_service w0); [apply export_service|exact Hw].
  - exact Hw.
Qed.

Lemma reachable_keyed w : reachable w -> keyed_by_id w.
Proof.
  induction 1 as [storage | w w' _ IH Hstep].
  - apply new_DocumentService_keyed.
  - exact (Step_keyed w w' Hstep IH).
Qed.

End KeyedById.

(** C10: in every state the service reaches - constructed over any storage,
    which loads the persisted snapshot, then any sequence of uploads,
    updates, deletes and exports - the key of each entry of the map is the
    [id] of the record stored under it, so [getDocument] of the [id] of any
    record in the collection yields that record. *)
Theorem C10_key_is_record_id (w : World) :
  reachable w ->
  keyed_by_id w
  /\ (forall (key : string) (doc : Document.t),
        documents (service w) !! key = Some doc ->
        key = Document.id doc
        /\ getDocument (Document.id doc) w = (Returned (Some doc), w)).
Proof.
  intros Hreach. pose proof (reachable_keyed w Hreach) as Hkeyed.
  split; [exact Hkeyed|].
  intros key doc Hget. pose proof (Hkeyed key doc Hget) as Hkey.
  split; [exact Hkey|].
  unfold getDocument, bind, documents_get, ret.
  now rewrite <- Hkey, Hget.
Qed.

(** ** Persistence failures *)

Section PersistenceFailures.

Implicit Type w : World.

Lemma loadFromLocalStorage_locked w :
  getItem_ok (localStorage w) = false ->
  loadFromLocalStorage w
  = (Returned tt,
     {| service := service w; localStorage := localStorage w;
        console := console w ++ ["Error loading documents from storage:"];
        progress := progress w |}).
Proof.
  intros Hget. unfold loadFromLocalStorage, try_catch, bind, getItem.
  now rewrite Hget.
Qed.

Lemma loadFromLocalStorage_garbled w (c : ascii) (raw : string) :
  getItem_ok (localStorage w) = true ->
  item (localStorage w) = Some (Garbled (String c raw)) ->
  loadFromLocalStorage w
  = (Returned tt,
     {| service := service w; localStorage := localStorage w;
        console := console w ++ ["Error loading documents from storage:"];
        progress := progress w |}).
Proof.
  intros Hget Hitem. unfold loadFromLocalStorage, try_catch, bind, getItem.
  now rewrite Hget, Hitem.
Qed.

Lemma saveToLocalStorage_full w :
  setItem_ok (localStorage w) = false ->
  saveToLocalStorage w
  = (Returned tt,
     {| service := service w; localStorage := localStorage w;
        console := console w ++ ["Error saving documents to storage:"];
        progress := progress w |}).
Proof. intros Hset. now rewrite saveToLocalStorage_run, Hset. Qed.

Lemma uploadDocument_full (file : File.t) (productType : string)
    (onProgress : bool) (now : Z) (suffix : string) w :
  setItem_ok (localStorage w) = false ->
  valid (validatePDF file) = true ->
  File.reader_ok file = true ->
  exists w' : World,
    uploadDocument file productType onProgress now suffix w
    = (Returned (new_document file productType now suffix
                   (Some (Base64.encode (File.content file)))), w')
    /\ localStorage w' = localStorage w
    /\ console w'
       = (console w ++ ["Error saving documents to storage:"])%list.
Proof.
  intros Hset Hvalid Hread. unfold uploadDocument.
  rewrite Hvalid. cbn [negb].
  rewrite (readAsDataURL_pdf file (validatePDF_valid_type file Hvalid) Hread).
  unfold try_catch, bind, ret, report, documents_set.
  rewrite saveToLocalStorage_run.
  destruct onProgress;
    cbn [service localStorage console progress setItem_ok];
    rewrite Hset; (eexists; repeat split; reflexivity).
Qed.

End PersistenceFailures.

(** C7 as the code has it: when writing the snapshot fails, or reading it
    back at construction fails, the method logs one line to the console and
    goes on; the caller of [deleteDocument], [updateDocument] and
    [uploadDocument] gets the normal result, the map is changed as if the
    write had succeeded, and the storage is left as it was. *)
Theorem C7_persistence_failure_logged_not_thrown (w : World) :
  (setItem_ok (localStorage w) = false ->
   saveToLocalStorage w
   = (Returned tt,
      {| service := service w; localStorage := localStorage w;
         console := console w ++ ["Error saving documents to storage:"];
         progress := progress w |})
   /\ (forall id : string,
         is_Some (documents (service w) !! id) ->
         deleteDocument id w
         = (Returned tt,
            {| service :=
                 {| documents := delete id (documents (service w));
                    nextId := nextId (service w) |};
               localStorage := localStorage w;
               console := console w ++ ["Error saving documents to storage:"];
               progress := progress w |}))
   /\ (forall (id : string) (updates : Partial.t) (existing : Document.t),
         documents (service w) !! id = Some existing ->
         updateDocument id updates w
         = (Returned tt,
            {| service :=
                 {| documents :=
                      <[id := updated existing updates]>
                        (documents (service w));
                    nextId := nextId (service w) |};
               localStorage := localStorage w;
               console := console w ++ ["Error saving documents to storage:"];
               progress := progress w |}))
   /\ (forall (file : File.t) (productType : string) (onProgress : bool)
              (now : Z) (suffix : string),
         valid (validatePDF file) = true ->
         File.reader_ok file = true ->
         exists (doc : Document.t) (w' : World),
           uploadDocument file productType onProgress now suffix w
           = (Returned doc, w')
           /\ documents (service w') !! Document.id doc = Some doc
           /\ localStorage w' = localStorage w
           /\ console w'
              = (console w ++ ["Error saving documents to storage:"])%list))
  /\ (getItem_ok (localStorage w) = false
      \/ (exists (c : ascii) (raw : string),
            item (localStorage w) = Some (Garbled (String c raw))) ->
      loadFromLocalStorage w
      = (Returned tt,
         {| service := service w; localStorage := localStorage w;
            console := console w ++ ["Error loading documents from storage:"];
            progress := progress w |})).
Proof.
  split.
  - intros Hset. split; [now apply saveToLocalStorage_full|].
    split; [|split].
    + intros id Hget. rewrite (deleteDocument_present w id Hget).
      now rewrite saveToLocalStorage_full.
    + intros id updates existing Hget.
      rewrite (updateDocument_present w id updates existing Hget).
      now rewrite saveToLocalStorage_full.
    + intros file productType onProgress now suffix Hvalid Hread.
      destruct (uploadDocument_full file productType onProgress now suffix w
                  Hset Hvalid Hread) as (w' & Hrun & Hls & Hlog).
      destruct (uploadDocument_accepted file productType onProgress now
                  suffix w Hvalid Hread) as (w'' & Hrun' & Hsvc).
      rewrite Hrun in Hrun'. injection Hrun' as <-.
      eexists _, w'. split; [exact Hrun|].
      split; [|split; assumption].
      rewrite Hsvc. cbn [documents new_document Document.id].
      apply lookup_insert_eq.
  - intros [Hget | (c & raw & Hitem)].
    + now apply loadFromLocalStorage_locked.
    + destruct (getItem_ok (localStorage w)) eqn:Hget.
      * now apply (loadFromLocalStorage_garbled w c raw).
      * now apply loadFromLocalStorage_locked.
Qed.

(** C7 as stated fails: with the storage quota used up, [deleteDocument] of
    a record that is present returns normally - nothing is thrown to the
    caller - while the write failed and the stored snapshot still holds the
    deleted record; a service constructed over a storage that cannot be read
    comes up empty without throwing either. *)
Lemma C7_write_failure_not_rethrown :
  setItem_ok (localStorage Sample.full_world) = false
  /\ is_Some (documents (service Sample.full_world)
                !! Document.id Sample.doc)
  /\ fst (deleteDocument (Document.id Sample.doc) Sample.full_world)
     = Returned tt
  /\ (forall e : Thrown,
        fst (deleteDocument (Document.id Sample.doc) Sample.full_world)
        <> Threw e)
  /\ item (localStorage
             (snd (deleteDocument (Document.id Sample.doc) Sample.full_world)))
     = Some (Snapshot [Sample.doc; Sample.remote_doc])
  /\ documents
       (service
          (snd (deleteDocument (Document.id Sample.doc) Sample.full_world)))
       !! Document.id Sample.doc = None
  /\ getItem_ok Sample.locked_storage = false
  /\ fst (loadFromLocalStorage
            {| service := {| documents := ∅; nextId := 1 |};
               localStorage := Sample.locked_storage;
               console := []; progress := [] |})
     = Returned tt.
Proof.
  assert (Hpresent : is_Some (documents (service Sample.full_world)
                                !! Document.id Sample.doc)).
  { exists Sample.doc. vm_compute. reflexivity. }
  split; [reflexivity|].
  split; [exact Hpresent|].
  rewrite (deleteDocument_present _ _ Hpresent).
  rewrite saveToLocalStorage_full by reflexivity.
  cbn [fst snd service localStorage documents].
  split; [reflexivity|].
  split; [discriminate|].
  split; [reflexivity|].
  split; [apply lookup_delete_eq|].
  split; [reflexivity|].
  apply loadFromLocalStorage_returns.
Qed.

(** ** The theorems at the sample inputs *)

(** The size rules at a PDF file of exactly 1 KiB. *)
Lemma C2_validate_size_bounds_at_sample :
  File.type Sample.file = "application/pdf"
  /\ ((validatePDF Sample.file = invalid "File size exceeds 50MB limit"
       <-> File.size Sample.file > 52428800)
      /\ (validatePDF Sample.file
          = invalid "File is too small to be a valid PDF"
          <-> File.size Sample.file < 1024)
      /\ (File.size Sample.file = 52428800 \/ File.size Sample.file = 1024 ->
          validatePDF Sample.file <> invalid "File size exceeds 50MB limit"
          /\ validatePDF Sample.file
             <> invalid "File is too small to be a valid PDF")).
Proof.
  split; [reflexivity|].
  apply (C2_validate_size_bounds Sample.file). reflexivity.
Defined.

(** The signature rule at the sample file. *)
Lemma C3_validate_signature_at_sample :
  File.type Sample.file = "application/pdf"
  /\ 1024 <= File.size Sample.file <= 52428800
  /\ ((validatePDF Sample.file
       = invalid "File does not appear to be a valid PDF"
       <-> File.buffer_ok Sample.file = true
           /\ firstn 4 (File.content Sample.file)
              <> [x25; x50; x44; x46]%byte)
      /\ (validatePDF Sample.file = accepted
          <-> File.buffer_ok Sample.file = true
              /\ firstn 4 (File.content Sample.file)
                 = [x25; x50; x44; x46]%byte)
      /\ (validatePDF Sample.file = invalid "Failed to read file"
          <-> File.buffer_ok Sample.file = false)
      /\ invalid "Failed to read file"
         <> invalid "File does not appear to be a valid PDF").
Proof.
  assert (Hsize : 1024 <= File.size Sample.file <= 52428800).
  { change (1024 <= 1024 <= 52428800). lia. }
  split; [reflexivity|]. split; [exact Hsize|].
  apply (C3_validate_signature Sample.file); [reflexivity|exact Hsize].
Defined.


(** Uploading the sample file into a loaded store, then reading it back. *)
Lemma C9_create_then_get_at_sample :
  valid (validatePDF Sample.file) = true
  /\ File.reader_ok Sample.file = true
  /\ exists (doc : Document.t) (w' : World),
       uploadDocument Sample.file "underlayment" true 1700000000002
         "p4t7n1s6d" Sample.world
       = (Returned doc, w')
       /\ getDocument (Document.id doc) w' = (Returned (Some doc), w')
       /\ Document.filename doc = "Product-TDS-sheet.pdf"
       /\ Document.size doc = 1024
       /\ Document.productType doc = "underlayment".
Proof.
  assert (Hvalid : valid (validatePDF Sample.file) = true).
  { vm_compute. reflexivity. }
  split; [exact Hvalid|]. split; [reflexivity|].
  destruct (C9_create_then_get Sample.file "underlayment" true 1700000000002
              "p4t7n1s6d" Sample.world Hvalid eq_refl)
    as (doc & w' & Hrun & Hback & _ & _ & _ & Hfile & _ & Hsize & Hcat & _).
  exists doc, w'. repeat split; assumption.
Defined.

(** A store loaded from a snapshot, after one update. *)
Lemma C10_key_is_record_id_at_sample :
  reachable
    (snd (updateDocument (Document.id Sample.doc) Sample.other_category
            Sample.world))
  /\ keyed_by_id
       (snd (updateDocument (Document.id Sample.doc) Sample.other_category
               Sample.world)).
Proof.
  assert (Hreach :
    reachable
      (snd (updateDocument (Document.id Sample.doc) Sample.other_category
              Sample.world))).
  { apply (reachable_step Sample.world).
    - apply (reachable_new Sample.storage).
    - apply step_update. }
  split; [exact Hreach|].
  apply (C10_key_is_record_id _ Hreach).
Defined.

(** ** The methods on concrete inputs *)

(** A file that is too large and not a PDF is turned away for its type. *)
Example validate_rule_order_example :
  validatePDF
    {| File.name := "movie.mp4";
       File.blob := {| Blob.type := "video/mp4"; Blob.size := 99999999;
                       Blob.content := []; Blob.buffer_ok := false;
                       Blob.reader_ok := false |} |}
  = invalid "File must be a PDF document".
Proof. reflexivity. Qed.

(** The first row of the table wins: a TDS of an installation kit. *)
Example classify_priority_example :
  classify "Install-kit TDS (spec).pdf" = (TDS, "Technical Data Sheet")
  /\ classify "LEED-warranty.pdf" = (LEED, "LEED Credit Guide")
  /\ classify "wesley-notes.pdf" = (Acoustic, "Acoustical Performance").
Proof. repeat split; vm_compute; reflexivity. Qed.

(** The loaded store exports the inline record without the network. *)
Example export_inline_example :
  exportDocumentAsBase64 Sample.offline (Document.id Sample.doc) Sample.world
  = (Returned (text "JVBERi0xLjQ="), Sample.world).
Proof.
  apply (export_base64_url Sample.offline Sample.world _ Sample.doc
           "application/pdf" "JVBERi0xLjQ=");
    vm_compute; reflexivity.
Qed.

(** Off line, the remote record exports as [null] and one line is logged. *)
Example export_offline_example :
  fst (exportDocumentAsBase64 Sample.offline (Document.id Sample.remote_doc)
         Sample.world)
  = Returned null
  /\ console
       (snd (exportDocumentAsBase64 Sample.offline
               (Document.id Sample.remote_doc) Sample.world))
     = ["Error exporting document:"].
Proof.
  rewrite (export_remote Sample.offline Sample.world _ Sample.remote_doc);
    [split; reflexivity | vm_compute; reflexivity | discriminate
    | vm_compute; reflexivity].
Qed.

(** Deleting the same record twice. *)
Example delete_twice_example :
  fst (deleteDocument (Document.id Sample.doc) Sample.world) = Returned tt
  /\ deleteDocument (Document.id Sample.doc)
       (snd (deleteDocument (Document.id Sample.doc) Sample.world))
     = (Threw (Error "Document not found"),
        snd (deleteDocument (Document.id Sample.doc) Sample.world)).
Proof.
  assert (Hpresent : is_Some (documents (service Sample.world)
                                !! Document.id Sample.doc)).
  { exists Sample.doc. vm_compute. reflexivity. }
  rewrite (deleteDocument_present _ _ Hpresent).
  split; [apply saveToLocalStorage_returns|].
  apply deleteDocument_absent.
  rewrite saveToLocalStorage_service. apply lookup_delete_eq.
Qed.

(** * Further properties of the code *)

(** ** Validator and classifier *)

Section ValidatorMore.

Import ValidatorSpec.

Lemma validatePDF_cases (f : File.t) :
  validatePDF f = accepted
  \/ exists why : Reason, validatePDF f = invalid (message why).
Proof.
  rewrite validatePDF_refines. unfold validate.
  destruct (first_failure rules f) as [why|]; [right; now exists why|now left].
Qed.

Lemma message_not_empty (why : Reason) (other : string) :
  or_else (message why) other = message why.
Proof. destruct why; reflexivity. Qed.

Lemma signature_check_header (c d : list byte) :
  firstn 4 c = firstn 4 d ->
  startsWith (fromCharCode (firstn 5 c)) "%PDF"
  = startsWith (fromCharCode (firstn 5 d)) "%PDF".
Proof.
  intros Hhead.
  pose proof (signature_bytes c) as Hc. pose proof (signature_bytes d) as Hd.
  rewrite Hhead in Hc.
  destruct (startsWith (fromCharCode (firstn 5 c)) "%PDF"),
           (startsWith (fromCharCode (firstn 5 d)) "%PDF");
    try reflexivity.
  - symmetry. apply Hd, Hc. reflexivity.
  - apply Hc, Hd. reflexivity.
Qed.

Lemma prefix_app (k b : string) : String.prefix k (k ++ b) = true.
Proof.
  induction k as [|c k IH]; [now destruct b|].
  change (String c k ++ b) with (String c (k ++ b)).
  now rewrite prefix_cons, Ascii.eqb_refl, IH.
Qed.

Lemma includes_here (k b : string) : includes (k ++ b) k = true.
Proof.
  destruct (k ++ b) eqn:E; cbn [includes]; unfold startsWith;
    rewrite <- E, prefix_app; reflexivity.
Qed.

Lemma includes_after (a s p : string) :
  includes s p = true -> includes (a ++ s) p = true.
Proof.
  intros Hs. induction a as [|c a IH]; [exact Hs|].
  change (String c a ++ s) with (String c (a ++ s)).
  cbn [includes]. rewrite IH. apply orb_true_r.
Qed.

Lemma toLowerCase_app (a b : string) :
  toLowerCase (a ++ b) = toLowerCase a ++ toLowerCase b.
Proof.
  induction a as [|c a IH]; [reflexivity|].
  change (String c a ++ b) with (String c (a ++ b)).
  cbn [toLowerCase]. rewrite IH. reflexivity.
Qed.

End ValidatorMore.

(** X1: [validatePDF] accepts a file exactly when its declared type is
    [application/pdf], its size is between 1 KiB and 50 MiB inclusive, the
    leading bytes could be read and the first four of them are [%PDF]. *)
Theorem X1_validate_accepts_iff (f : File.t) :
  valid (validatePDF f) = true
  <-> File.type f = "application/pdf"
      /\ 1024 <= File.size f <= 52428800
      /\ File.buffer_ok f = true
      /\ firstn 4 (File.content f) = [x25; x50; x44; x46]%byte.
Proof.
  destruct (String.eqb_spec (File.type f) "application/pdf") as [Hty|Hty].
  - rewrite (validatePDF_pdf f Hty), max_size_value.
    pose proof (signature_bytes (File.content f)) as Hsig.
    destruct (Z.gtb_spec (File.size f) 52428800);
      [split; [discriminate|lia]|].
    destruct (Z.ltb_spec (File.size f) 1024); [split; [discriminate|lia]|].
    destruct (File.buffer_ok f);
      [|split; [discriminate|intros (_ & _ & E & _); discriminate]].
    destruct (startsWith _ _).
    + split; [|reflexivity]. intros _.
      split; [exact Hty|]. split; [lia|]. split; [reflexivity|].
      now apply Hsig.
    + split; [discriminate|]. intros (_ & _ & _ & E).
      apply Hsig in E. discriminate.
  - rewrite (validatePDF_not_pdf f Hty).
    split; [discriminate|]. intros [E _]. contradiction.
Qed.

(** X2: the verdict of [validatePDF] depends on the declared type, the
    size, whether the leading bytes can be read and the first four bytes
    only: the file name, the bytes after the signature and the outcome of
    a later full read play no part. *)
Theorem X2_validate_inspects_header_only (f g : File.t) :
  File.type f = File.type g ->
  File.size f = File.size g ->
  File.buffer_ok f = File.buffer_ok g ->
  firstn 4 (File.content f) = firstn 4 (File.content g) ->
  validatePDF f = validatePDF g.
Proof.
  intros Hty Hsize Hbuf Hhead. unfold validatePDF.
  unfold File.arrayBuffer, Blob.arrayBuffer, File.slice, Blob.slice.
  unfold File.type, File.size, File.buffer_ok, File.content in *.
  cbn [Nat.sub skipn]. cbv zeta.
  rewrite Hty, Hsize, Hbuf.
  destruct (Blob.buffer_ok (File.blob g)); rewrite ?drop_0;
    rewrite ?(signature_check_header _ _ Hhead); reflexivity.
Qed.

Lemma X2_validate_inspects_header_only_at_sample :
  File.type Sample.file = File.type Case.lookalike
  /\ File.size Sample.file = File.size Case.lookalike
  /\ File.buffer_ok Sample.file = File.buffer_ok Case.lookalike
  /\ firstn 4 (File.content Sample.file)
     = firstn 4 (File.content Case.lookalike)
  /\ validatePDF Sample.file = validatePDF Case.lookalike.
Proof.
  split; [reflexivity|]. split; [reflexivity|]. split; [reflexivity|].
  split; [reflexivity|].
  apply (X2_validate_inspects_header_only Sample.file Case.lookalike);
    reflexivity.
Defined.

(** X3: when the validator turns a file down, [uploadDocument] throws an
    [Error] whose message is the validator's reason - one of its five texts,
    never the fallback ['Invalid PDF file'] - and nothing else happens: no
    progress is reported, nothing is stored, written or logged. *)
Theorem X3_upload_rejected_throws_reason (file : File.t)
    (productType : string) (onProgress : bool) (now : Z) (suffix : string)
    (w : World) :
  valid (validatePDF file) = false ->
  exists msg : string,
    error (validatePDF file) = Some msg
    /\ In msg [ "File must be a PDF document";
                "File size exceeds 50MB limit";
                "File is too small to be a valid PDF";
                "File does not appear to be a valid PDF";
                "Failed to read file" ]
    /\ uploadDocument file productType onProgress now suffix w
       = (Threw (Error msg), w).
Proof.
  intros Hvalid. rewrite (uploadDocument_rejected _ _ _ _ _ _ Hvalid).
  destruct (validatePDF_cases file) as [Hacc | [why Hwhy]].
  - rewrite Hacc in Hvalid. discriminate.
  - rewrite Hwhy. unfold invalid, default. cbn [error from_option id].
    exists (ValidatorSpec.message why). rewrite message_not_empty.
    split; [reflexivity|]. split; [|reflexivity].
    destruct why; cbn; tauto.
Qed.

Lemma X3_upload_rejected_throws_reason_at_sample :
  valid (validatePDF Case.disguised) = false
  /\ uploadDocument Case.disguised "underlayment" true 1700000000004
       "d1s9g7u5i" Sample.world
     = (Threw (Error "File does not appear to be a valid PDF"), Sample.world).
Proof.
  assert (Hvalid : valid (validatePDF Case.disguised) = false).
  { vm_compute. reflexivity. }
  split; [exact Hvalid|].
  destruct (X3_upload_rejected_throws_reason Case.disguised "underlayment"
              true 1700000000004 "d1s9g7u5i" Sample.world Hvalid)
    as (msg & Herr & _ & Hrun).
  rewrite Hrun. f_equal. f_equal. f_equal.
  assert (Hmsg : error (validatePDF Case.disguised)
                 = Some "File does not appear to be a valid PDF").
  { vm_compute. reflexivity. }
  congruence.
Defined.

(** X4: a file name that contains the letters t, d, s in a row, in any mix
    of upper and lower case and anywhere in the name, is classified as a
    Technical Data Sheet, whatever other keywords the name has. *)
Theorem X4_tds_anywhere_wins (before keyword after : string) :
  toLowerCase keyword = "tds" ->
  classify (before ++ keyword ++ after) = (TDS, "Technical Data Sheet").
Proof.
  intros Hkey. unfold classify. rewrite extractDocumentName_label.
  assert (Htype : detectDocumentType (before ++ keyword ++ after) = TDS).
  { unfold detectDocumentType.
    rewrite !toLowerCase_app, Hkey.
    now rewrite (includes_after _ _ _ (includes_here "tds" _)). }
  now rewrite Htype.
Qed.

Lemma X4_tds_anywhere_wins_at_sample :
  toLowerCase "TdS" = "tds"
  /\ classify ("Install-warranty_" ++ "TdS" ++ "-spec.pdf")
     = (TDS, "Technical Data Sheet").
Proof.
  split; [reflexivity|].
  apply (X4_tds_anywhere_wins "Install-warranty_" "TdS" "-spec.pdf").
  reflexivity.
Defined.

(** ** Store: update, delete and upload on the collection *)

Section StoreMore.

Implicit Type w : World.


(** Only the fields [updateDocument] lets through matter. *)
Lemma updated_identity_fields_only (existing : Document.t)
    (updates : Partial.t) :
  Partial.name updates = None ->
  Partial.description updates = None ->
  Partial.filename updates = None ->
  Partial.size updates = None ->
  Partial.type updates = None ->
  Partial.required updates = None ->
  Partial.products updates = None ->
  updated existing updates = existing.
Proof.
  intros Hn Hd Hf Hs Ht Hr Hp. unfold updated, spread.
  rewrite Hn, Hd, Hf, Hs, Ht, Hr, Hp. now destruct existing.
Qed.

Lemma updateDocument_run w id updates existing :
  documents (service w) !! id = Some existing ->
  exists w' : World,
    updateDocument id updates w = (Returned tt, w')
    /\ service w'
       = {| documents :=
              <[id := updated existing updates]> (documents (service w));
            nextId := nextId (service w) |}.
Proof.
  intros Hget. rewrite (updateDocument_present w id updates existing Hget).
  eexists. split.
  - rewrite surjective_pairing at 1. now rewrite saveToLocalStorage_returns.
  - now rewrite saveToLocalStorage_service.
Qed.

Lemma deleteDocument_run w id :
  is_Some (documents (service w) !! id) ->
  exists w' : World,
    deleteDocument id w = (Returned tt, w')
    /\ service w'
       = {| documents := delete id (documents (service w));
            nextId := nextId (service w) |}.
Proof.
  intros Hget. rewrite (deleteDocument_present w id Hget).
  eexists. split.
  - rewrite surjective_pairing at 1. now rewrite saveToLocalStorage_returns.
  - now rewrite saveToLocalStorage_service.
Qed.

(** Everything an accepted upload does to its surroundings. *)
Lemma uploadDocument_accepted_world (file : File.t) (productType : string)
    (onProgress : bool) (now : Z) (suffix : string) w :
  valid (validatePDF file) = true ->
  File.reader_ok file = true ->
  exists w' : World,
    uploadDocument file productType onProgress now suffix w
    = (Returned (new_document file productType now suffix
                   (Some (Base64.encode (File.content file)))), w')
    /\ service w'
       = {| documents :=
              <[fresh_id now suffix :=
                  new_document file productType now suffix
                    (Some (Base64.encode (File.content file)))]>
                (documents (service w));
            nextId := nextId (service w) |}
    /\ progress w'
       = (progress w ++ if onProgress then [25; 50; 100] else [])%list
    /\ console w'
       = (console w ++
          if setItem_ok (localStorage w) then []
          else ["Error saving documents to storage:"])%list
    /\ localStorage w'
       = if setItem_ok (localStorage w) then
           {| item :=
                Some (Snapshot
                        (snd <$> map_to_list
                           (<[fresh_id now suffix :=
                                new_document file productType now suffix
                                  (Some (Base64.encode (File.content file)))]>
                              (documents (service w)))));
              getItem_ok := getItem_ok (localStorage w);
              setItem_ok := setItem_ok (localStorage w) |}
         else localStorage w.
Proof.
  intros Hvalid Hread. unfold uploadDocument.
  rewrite Hvalid. cbn [negb].
  rewrite (readAsDataURL_pdf file (validatePDF_valid_type file Hvalid) Hread).
  unfold try_catch, bind, ret, report, documents_set.
  rewrite saveToLocalStorage_run.
  destruct onProgress;
    cbn [service localStorage console progress setItem_ok];
    destruct (setItem_ok (localStorage w));
    (eexists; split; [reflexivity|];
     cbn [service localStorage console progress];
     rewrite <- ?app_assoc, ?app_nil_r; repeat split).
Qed.

End StoreMore.

(** X5: [updateDocument] on an identifier that is not in the collection
    throws ['Document not found'] and changes nothing: the collection, the
    stored snapshot and the console stay as they were. *)
Theorem X5_update_absent_fails_unchanged (w : World) (id : string)
    (updates : Partial.t) :
  documents (service w) !! id = None ->
  updateDocument id updates w = (Threw (Error "Document not found"), w).
Proof. apply updateDocument_absent. Qed.

Lemma X5_update_absent_fails_unchanged_at_sample :
  documents (service Case.empty_world) !! Document.id Sample.doc = None
  /\ updateDocument (Document.id Sample.doc) Case.rename Case.empty_world
     = (Threw (Error "Document not found"), Case.empty_world).
Proof.
  assert (Hget : documents (service Case.empty_world)
                   !! Document.id Sample.doc = None).
  { vm_compute. reflexivity. }
  split; [exact Hget|].
  apply (X5_update_absent_fails_unchanged Case.empty_world _ Case.rename Hget).
Defined.



(** X7: an update whose payload carries none of the changeable fields -
    empty, or holding only an [id], a [productType] or a [url] of its own -
    succeeds and leaves the collection exactly as it was. *)
Theorem X7_update_of_fixed_fields_is_noop (w : World) (id : string)
    (updates : Partial.t) (existing : Document.t) :
  documents (service w) !! id = Some existing ->
  Partial.name updates = None ->
  Partial.description updates = None ->
  Partial.filename updates = None ->
  Partial.size updates = None ->
  Partial.type updates = None ->
  Partial.required updates = None ->
  Partial.products updates = None ->
  exists w' : World,
    updateDocument id updates w = (Returned tt, w')
    /\ documents (service w') = documents (service w).
Proof.
  intros Hget Hn Hd Hf Hs Ht Hr Hp.
  destruct (updateDocument_run w id updates existing Hget) as (w' & Hrun & Hsvc).
  exists w'. split; [exact Hrun|].
  rewrite Hsvc. cbn [documents].
  rewrite (updated_identity_fields_only existing updates Hn Hd Hf Hs Ht Hr Hp).
  now apply insert_id.
Qed.

Lemma X7_update_of_fixed_fields_is_noop_at_sample :
  documents (service Sample.world) !! Document.id Sample.doc = Some Sample.doc
  /\ exists w' : World,
       updateDocument (Document.id Sample.doc)
         (Partial.mk (Some "doc_0") None None None
            (Some "https://example.com/other.pdf") None None None None
            (Some "other"))
         Sample.world
       = (Returned tt, w')
       /\ documents (service w') = documents (service Sample.world).
Proof.
  assert (Hget : documents (service Sample.world) !! Document.id Sample.doc
                 = Some Sample.doc).
  { vm_compute. reflexivity. }
  split; [exact Hget|].
  apply (X7_update_of_fixed_fields_is_noop Sample.world _ _ Sample.doc Hget);
    reflexivity.
Defined.

(** X8: a successful [deleteDocument] removes the record under the given
    identifier and no other: every other identifier still leads to the
    record it led to before. *)
Theorem X8_delete_removes_only_that_record (w : World) (id : string) :
  is_Some (documents (service w) !! id) ->
  exists w' : World,
    deleteDocument id w = (Returned tt, w')
    /\ documents (service w') !! id = None
    /\ (forall other : string,
          other <> id ->
          documents (service w') !! other = documents (service w) !! other)
    /\ size (documents (service w)) = S (size (documents (service w'))).
Proof.
  intros Hget. destruct (deleteDocument_run w id Hget) as (w' & Hrun & Hsvc).
  exists w'. split; [exact Hrun|]. rewrite Hsvc. cbn [documents].
  split; [apply lookup_delete_eq|]. split.
  - intros other Hne. now apply lookup_delete_ne.
  - destruct Hget as [doc Hdoc].
    rewrite <- (insert_delete_id (documents (service w)) id doc Hdoc) at 1.
    apply map_size_insert_None, lookup_delete_eq.
Qed.

Lemma X8_delete_removes_only_that_record_at_sample :
  is_Some (documents (service Sample.world) !! Document.id Sample.doc)
  /\ exists w' : World,
       deleteDocument (Document.id Sample.doc) Sample.world = (Returned tt, w')
       /\ documents (service w') !! Document.id Sample.doc = None
       /\ documents (service w') !! Document.id Sample.remote_doc
          = documents (service Sample.world) !! Document.id Sample.remote_doc.
Proof.
  assert (Hget : is_Some (documents (service Sample.world)
                            !! Document.id Sample.doc)).
  { exists Sample.doc. vm_compute. reflexivity. }
  split; [exact Hget|].
  destruct (X8_delete_removes_only_that_record Sample.world
              (Document.id Sample.doc) Hget)
    as (w' & Hrun & Hgone & Hframe & _).
  exists w'. split; [exact Hrun|]. split; [exact Hgone|].
  apply Hframe. discriminate.
Defined.

(** X9: an accepted upload adds exactly one record, under the identifier
    put together from the clock reading and the random suffix: that
    identifier leads to the returned record, every other identifier leads to
    what it led to before, and an [onProgress] callback has been called
    with 25, 50 and 100, in this order. *)
Theorem X9_upload_adds_one_record (file : File.t) (productType : string)
    (onProgress : bool) (now : Z) (suffix : string) (w : World) :
  valid (validatePDF file) = true ->
  File.reader_ok file = true ->
  exists (doc : Document.t) (w' : World),
    uploadDocument file productType onProgress now suffix w
    = (Returned doc, w')
    /\ Document.id doc = "doc_" ++ of_Z now ++ "_" ++ suffix
    /\ documents (service w') !! Document.id doc = Some doc
    /\ (forall other : string,
          other <> Document.id doc ->
          documents (service w') !! other = documents (service w) !! other)
    /\ progress w'
       = (progress w ++ if onProgress then [25; 50; 100] else [])%list.
Proof.
  intros Hvalid Hread.
  destruct (uploadDocument_accepted_world file productType onProgress now
              suffix w Hvalid Hread) as (w' & Hrun & Hsvc & Hprog & _).
  eexists _, w'. split; [exact Hrun|].
  split; [reflexivity|]. rewrite Hsvc. cbn [documents new_document Document.id].
  split; [apply lookup_insert_eq|]. split; [|exact Hprog].
  intros other Hne. apply lookup_insert_ne. congruence.
Qed.

Lemma X9_upload_adds_one_record_at_sample :
  valid (validatePDF Sample.file) = true
  /\ File.reader_ok Sample.file = true
  /\ exists (doc : Document.t) (w' : World),
       uploadDocument Sample.file "underlayment" true 1700000000005
         "u9p8l7o6a" Sample.world
       = (Returned doc, w')
       /\ Document.id doc = "doc_1700000000005_u9p8l7o6a"
       /\ documents (service w') !! Document.id doc = Some doc
       /\ progress w' = [25; 50; 100].
Proof.
  assert (Hvalid : valid (validatePDF Sample.file) = true).
  { vm_compute. reflexivity. }
  split; [exact Hvalid|]. split; [reflexivity|].
  destruct (X9_upload_adds_one_record Sample.file "underlayment" true
              1700000000005 "u9p8l7o6a" Sample.world Hvalid eq_refl)
    as (doc & w' & Hrun & Hid & Hget & _ & Hprog).
  exists doc, w'. repeat split; assumption.
Defined.

(** X10: [uploadDocument] does not look whether its identifier is taken:
    two accepted uploads that get the same clock reading and the same
    random suffix get the same identifier, and the second record replaces
    the first, so the collection ends up with one new entry, not two. *)
Theorem X10_upload_same_id_replaces (file1 file2 : File.t)
    (productType1 productType2 : string) (onProgress1 onProgress2 : bool)
    (now : Z) (suffix : string) (w : World) :
  valid (validatePDF file1) = true -> File.reader_ok file1 = true ->
  valid (validatePDF file2) = true -> File.reader_ok file2 = true ->
  exists (doc1 doc2 : Document.t) (w1 w2 : World),
    uploadDocument file1 productType1 onProgress1 now suffix w
    = (Returned doc1, w1)
    /\ uploadDocument file2 productType2 onProgress2 now suffix w1
       = (Returned doc2, w2)
    /\ Document.id doc1 = Document.id doc2
    /\ Document.filename doc2 = File.name file2
    /\ documents (service w2)
       = <[Document.id doc2 := doc2]> (documents (service w)).
Proof.
  intros Hvalid1 Hread1 Hvalid2 Hread2.
  destruct (uploadDocument_accepted_world file1 productType1 onProgress1 now
              suffix w Hvalid1 Hread1) as (w1 & Hrun1 & Hsvc1 & _).
  destruct (uploadDocument_accepted_world file2 productType2 onProgress2 now
              suffix w1 Hvalid2 Hread2) as (w2 & Hrun2 & Hsvc2 & _).
  eexists _, _, w1, w2. split; [exact Hrun1|]. split; [exact Hrun2|].
  split; [reflexivity|]. split; [reflexivity|].
  rewrite Hsvc2, Hsvc1. cbn [documents new_document Document.id].
  apply insert_insert_eq.
Qed.

Lemma X10_upload_same_id_replaces_at_sample :
  valid (validatePDF Sample.file) = true
  /\ File.reader_ok Sample.file = true
  /\ exists (doc1 doc2 : Document.t) (w1 w2 : World),
       uploadDocument Sample.file "underlayment" false 1700000000006
         "s4m3s4m3i" Case.empty_world
       = (Returned doc1, w1)
       /\ uploadDocument Sample.file "structural-floor" false 1700000000006
            "s4m3s4m3i" w1
          = (Returned doc2, w2)
       /\ Document.id doc1 = Document.id doc2
       /\ documents (service w2)
          = <[Document.id doc2 := doc2]> (documents (service Case.empty_world)).
Proof.
  assert (Hvalid : valid (validatePDF Sample.file) = true).
  { vm_compute. reflexivity. }
  split; [exact Hvalid|]. split; [reflexivity|].
  destruct (X10_upload_same_id_replaces Sample.file Sample.file
              "underlayment" "structural-floor" false false 1700000000006
              "s4m3s4m3i" Case.empty_world Hvalid eq_refl Hvalid eq_refl)
    as (doc1 & doc2 & w1 & w2 & H1 & H2 & Hid & _ & Hmap).
  exists doc1, doc2, w1, w2. repeat split; assumption.
Defined.

(** X11: uploading a file under an identifier that was free and then
    deleting the returned identifier gives back the collection as it was
    before the upload. *)
Theorem X11_upload_then_delete_restores (file : File.t)
    (productType : string) (onProgress : bool) (now : Z) (suffix : string)
    (w : World) :
  valid (validatePDF file) = true ->
  File.reader_ok file = true ->
  documents (service w) !! fresh_id now suffix = None ->
  exists (doc : Document.t) (w1 w2 : World),
    uploadDocument file productType onProgress now suffix w
    = (Returned doc, w1)
    /\ deleteDocument (Document.id doc) w1 = (Returned tt, w2)
    /\ documents (service w2) = documents (service w).
Proof.
  intros Hvalid Hread Hfree.
  destruct (uploadDocument_accepted_world file productType onProgress now
              suffix w Hvalid Hread) as (w1 & Hrun1 & Hsvc1 & _).
  assert (Hget : is_Some (documents (service w1) !! fresh_id now suffix)).
  { rewrite Hsvc1. cbn [documents]. rewrite lookup_insert_eq. eauto. }
  destruct (deleteDocument_run w1 (fresh_id now suffix) Hget)
    as (w2 & Hrun2 & Hsvc2).
  eexists _, w1, w2. split; [exact Hrun1|]. split; [exact Hrun2|].
  rewrite Hsvc2, Hsvc1. cbn [documents].
  now apply delete_insert_id.
Qed.

Lemma X11_upload_then_delete_restores_at_sample :
  valid (validatePDF Sample.file) = true
  /\ File.reader_ok Sample.file = true
  /\ documents (service Sample.world) !! fresh_id 1700000000007 "r0u9n8d7t"
     = None
  /\ exists (doc : Document.t) (w1 w2 : World),
       uploadDocument Sample.file "underlayment" true 1700000000007
         "r0u9n8d7t" Sample.world
       = (Returned doc, w1)
       /\ deleteDocument (Document.id doc) w1 = (Returned tt, w2)
       /\ documents (service w2) = documents (service Sample.world).
Proof.
  assert (Hvalid : valid (validatePDF Sample.file) = true).
  { vm_compute. reflexivity. }
  assert (Hfree : documents (service Sample.world)
                    !! fresh_id 1700000000007 "r0u9n8d7t" = None).
  { vm_compute. reflexivity. }
  split; [exact Hvalid|]. split; [reflexivity|]. split; [exact Hfree|].
  apply (X11_upload_then_delete_restores Sample.file "underlayment" true
           1700000000007 "r0u9n8d7t" Sample.world Hvalid eq_refl Hfree).
Defined.

(** X12: when the validator accepts a file but reading the whole file then
    fails, [uploadDocument] throws ['Failed to upload document'] after one
    line on the console; the collection and the storage are untouched, and
    an [onProgress] callback has seen 25 only. *)
Theorem X12_upload_unreadable_fails_clean (file : File.t)
    (productType : string) (onProgress : bool) (now : Z) (suffix : string)
    (w : World) :
  valid (validatePDF file) = true ->
  File.reader_ok file = false ->
  uploadDocument file productType onProgress now suffix w
  = (Threw (Error "Failed to upload document"),
     {| service := service w;
        localStorage := localStorage w;
        console := console w ++ ["Error in uploadDocument:"];
        progress := progress w ++ if onProgress then [25] else [] |}).
Proof.
  intros Hvalid Hread. unfold uploadDocument.
  rewrite Hvalid. cbn [negb].
  unfold readAsDataURL. unfold File.reader_ok in Hread. rewrite Hread.
  unfold try_catch, bind, throw, report, console_error.
  destruct onProgress; cbn [service localStorage console progress];
    rewrite ?app_nil_r; reflexivity.
Qed.

Lemma X12_upload_unreadable_fails_clean_at_sample :
  valid (validatePDF Case.unreadable) = true
  /\ File.reader_ok Case.unreadable = false
  /\ fst (uploadDocument Case.unreadable "underlayment" true 1700000000008
            "f4i1l3d0x" Sample.world)
     = Threw (Error "Failed to upload document").
Proof.
  assert (Hvalid : valid (validatePDF Case.unreadable) = true).
  { vm_compute. reflexivity. }
  split; [exact Hvalid|]. split; [reflexivity|].
  rewrite (X12_upload_unreadable_fails_clean Case.unreadable "underlayment"
             true 1700000000008 "f4i1l3d0x" Sample.world Hvalid eq_refl).
  reflexivity.
Defined.

(** ** Persistence: saving and loading the snapshot *)

Section Persistence.

Implicit Type w : World.
Implicit Type m : gmap string Document.t.

(** Loading a list of records is folding [set] over it. *)
Lemma forEach_set_service (docs : list Document.t) w :
  service (snd (forEach docs (fun doc => documents_set (Document.id doc) doc) w))
  = {| documents :=
         foldl (fun m doc => <[Document.id doc := doc]> m)
           (documents (service w)) docs;
       nextId := nextId (service w) |}.
Proof.
  revert w. induction docs as [|doc docs IH]; intros w.
  - cbn [forEach foldl ret snd]. now destruct (service w).
  - cbn [forEach foldl]. unfold bind at 1. unfold documents_set at 1.
    rewrite IH. reflexivity.
Qed.

Lemma foldl_set_other (docs : list Document.t) m (key : string) :
  (forall doc, In doc docs -> Document.id doc <> key) ->
  foldl (fun m doc => <[Document.id doc := doc]> m) m docs !! key = m !! key.
Proof.
  revert m. induction docs as [|doc docs IH]; intros m Hkey; [reflexivity|].
  cbn [foldl]. rewrite IH.
  - apply lookup_insert_ne. apply Hkey. now left.
  - intros d Hd. apply Hkey. now right.
Qed.

Lemma foldl_set_last (before after : list Document.t) (doc : Document.t) m :
  (forall later, In later after -> Document.id later <> Document.id doc) ->
  foldl (fun m doc => <[Document.id doc := doc]> m) m (before ++ doc :: after)
    !! Document.id doc
  = Some doc.
Proof.
  intros Hlater. rewrite foldl_app. cbn [foldl].
  rewrite (foldl_set_other after _ _ Hlater). apply lookup_insert_eq.
Qed.

Lemma foldl_set_origin (docs : list Document.t) m (key : string)
    (doc : Document.t) :
  foldl (fun m doc => <[Document.id doc := doc]> m) m docs !! key = Some doc ->
  (In doc docs /\ key = Document.id doc) \/ m !! key = Some doc.
Proof.
  revert m. induction docs as [|d docs IH]; intros m Hget; [now right|].
  cbn [foldl] in Hget. apply IH in Hget as [[Hin Hkey] | Hget].
  - left. split; [now right|exact Hkey].
  - destruct (decide (Document.id d = key)) as [E | Hne].
    + subst key. rewrite lookup_insert_eq in Hget. injection Hget as ->.
      left. split; [now left|reflexivity].
    + rewrite lookup_insert_ne in Hget by exact Hne. now right.
Qed.


(** What the constructor builds over a readable snapshot. *)
Lemma new_DocumentService_snapshot (storage : LocalStorage)
    (docs : list Document.t) :
  getItem_ok storage = true ->
  item storage = Some (Snapshot docs) ->
  documents (service (new_DocumentService storage))
  = foldl (fun m doc => <[Document.id doc := doc]> m) ∅ docs.
Proof.
  intros Hget Hitem.
  unfold new_DocumentService, loadFromLocalStorage, try_catch, bind, getItem.
  cbn [localStorage]. rewrite Hget, Hitem. cbn [truthy JSON_parse ret].
  pose proof (forEach_set_returns docs
                {| service := {| documents := ∅; nextId := 1 |};
                   localStorage := storage; console := []; progress := [] |})
    as Hret.
  pose proof (forEach_set_service docs
                {| service := {| documents := ∅; nextId := 1 |};
                   localStorage := storage; console := []; progress := [] |})
    as Hsvc.
  destruct (forEach docs _ _) as [[[]|e] w']; cbn in Hret;
    [|discriminate].
  cbn [snd] in *. now rewrite Hsvc.
Qed.


End Persistence.

Section Reload.

Implicit Type w : World.



End Reload.



(** X14: the constructor loads a readable snapshot record by record, a
    later record replacing an earlier one with the same [id]: the last
    record of the snapshot with a given [id] is the one found under it, and
    everything in the collection is a record of the snapshot, stored under
    its own [id]. *)
Theorem X14_load_last_record_wins (storage : LocalStorage)
    (before after : list Document.t) (doc : Document.t) :
  getItem_ok storage = true ->
  item storage = Some (Snapshot (before ++ doc :: after)) ->
  (forall later : Document.t,
     In later after -> Document.id later <> Document.id doc) ->
  documents (service (new_DocumentService storage)) !! Document.id doc
  = Some doc
  /\ (forall (key : string) (found : Document.t),
        documents (service (new_DocumentService storage)) !! key = Some found ->
        In found (before ++ doc :: after) /\ key = Document.id found).
Proof.
  intros Hget Hitem Hlater.
  rewrite (new_DocumentService_snapshot storage _ Hget Hitem).
  split; [now apply foldl_set_last|].
  intros key found Hfound.
  apply foldl_set_origin in Hfound as [Hin | Hempty]; [exact Hin|].
  rewrite lookup_empty in Hempty. discriminate.
Qed.

Lemma X14_load_last_record_wins_at_sample :
  documents
    (service
       (new_DocumentService
          {| item := Some (Snapshot
                             ([Sample.doc]
                              ++ updated Sample.doc Case.rename
                                 :: [Sample.remote_doc]));
             getItem_ok := true; setItem_ok := true |}))
    !! Document.id (updated Sample.doc Case.rename)
  = Some (updated Sample.doc Case.rename).
Proof.
  apply (X14_load_last_record_wins
           {| item := Some (Snapshot
                              ([Sample.doc]
                               ++ updated Sample.doc Case.rename
                                  :: [Sample.remote_doc]));
              getItem_ok := true; setItem_ok := true |}
           [Sample.doc] [Sample.remote_doc] (updated Sample.doc Case.rename)).
  - reflexivity.
  - reflexivity.
  - intros later [<- | []]. discriminate.
Defined.



(** ** Export: what else it does *)

Section ExportMore.

Implicit Type w : World.
Variable network : string -> Remote.

(** The three ways a call of [exportDocumentAsBase64] can end. *)
Lemma export_outcome (id : string) w :
  (exists result : Payload,
     exportDocumentAsBase64 network id w = (Returned result, w))
  \/ (exportDocumentAsBase64 network id w
      = (Returned null,
         {| service := service w; localStorage := localStorage w;
            console := console w ++ ["Error exporting document:"];
            progress := progress w |}))
  \/ (exportDocumentAsBase64 network id w = (Threw NotAnError, w)
      /\ exists (doc : Document.t) (blob : Blob.t),
           documents (service w) !! id = Some doc
           /\ Document.url doc <> EmptyString
           /\ startsWith (Document.url doc) "data:" = false
           /\ network (Document.url doc) = body blob
           /\ Blob.reader_ok blob = false).
Proof.
  destruct (documents (service w) !! id) as [doc|] eqn:Hget;
    [|left; eexists; now apply export_absent].
  destruct (String.eqb_spec (Document.url doc) EmptyString) as [E|Hurl];
    [left; eexists; now apply (export_no_url network w id doc)|].
  destruct (startsWith (Document.url doc) "data:") eqn:Hdata;
    [left; eexists; now apply (export_inline network w id doc)|].
  rewrite (export_remote network w id doc Hget Hurl Hdata).
  destruct (network (Document.url doc)) as [| |blob] eqn:Hnet;
    [right; left; reflexivity|right; left; reflexivity|].
  destruct (Blob.reader_ok blob) eqn:Hread.
  - left. eexists. reflexivity.
  - right. right. split; [reflexivity|]. now exists doc, blob.
Qed.

Lemma split_comma_two (head piece tail : string) :
  comma_free head = true -> comma_free piece = true ->
  second (split_comma (head ++ "," ++ piece ++ "," ++ tail)) = Some piece.
Proof.
  intros Hhead Hpiece.
  now rewrite (split_comma_app head _ Hhead), (split_comma_app piece _ Hpiece).
Qed.

End ExportMore.

(** X16: [exportDocumentAsBase64] only reads: whatever the identifier and
    the network, the collection, the storage and the progress reports are
    as before the call, and the console has at most the one line of a
    failed fetch more. *)
Theorem X16_export_reads_only (network : string -> Remote) (id : string)
    (w : World) :
  service (snd (exportDocumentAsBase64 network id w)) = service w
  /\ localStorage (snd (exportDocumentAsBase64 network id w)) = localStorage w
  /\ progress (snd (exportDocumentAsBase64 network id w)) = progress w
  /\ (console (snd (exportDocumentAsBase64 network id w)) = console w
      \/ console (snd (exportDocumentAsBase64 network id w))
         = (console w ++ ["Error exporting document:"])%list).
Proof.
  destruct (export_outcome network id w)
    as [[result ->] | [-> | [-> _]]]; cbn [snd service localStorage progress console];
    repeat split; auto.
Qed.

(** X17: [exportDocumentAsBase64] throws in one situation only: the record
    is there, its reference is remote, the fetch and the blob succeed, and
    reading the blob fails; the promise of the reader is returned without
    [await], so its rejection passes the [catch]. What is thrown is the
    reader's event, nothing is logged and nothing changes. *)
Theorem X17_export_throws_only_on_unreadable_blob
    (network : string -> Remote) (id : string) (w : World) :
  ((exists e : Thrown, fst (exportDocumentAsBase64 network id w) = Threw e)
   <-> exists (doc : Document.t) (blob : Blob.t),
         documents (service w) !! id = Some doc
         /\ Document.url doc <> EmptyString
         /\ startsWith (Document.url doc) "data:" = false
         /\ network (Document.url doc) = body blob
         /\ Blob.reader_ok blob = false)
  /\ (forall e : Thrown,
        fst (exportDocumentAsBase64 network id w) = Threw e ->
        exportDocumentAsBase64 network id w = (Threw NotAnError, w)).
Proof.
  split; [split|].
  - intros [e He].
    destruct (export_outcome network id w)
      as [[result Hrun] | [Hrun | [_ Hwhy]]];
      [rewrite Hrun in He; discriminate
      |rewrite Hrun in He; discriminate|exact Hwhy].
  - intros (doc & blob & Hget & Hurl & Hdata & Hnet & Hread).
    exists NotAnError.
    now rewrite (export_remote network w id doc Hget Hurl Hdata), Hnet, Hread.
  - intros e He.
    destruct (export_outcome network id w)
      as [[result Hrun] | [Hrun | [Hrun _]]];
      [rewrite Hrun in He; discriminate
      |rewrite Hrun in He; discriminate|exact Hrun].
Qed.

(** X18: for an inline reference [exportDocumentAsBase64] answers with the
    text between the first and the second comma of the reference: what
    follows a second comma is cut off. *)
Theorem X18_export_inline_second_piece (network : string -> Remote)
    (w : World) (id : string) (doc : Document.t) (head piece tail : string) :
  documents (service w) !! id = Some doc ->
  Document.url doc = "data:" ++ head ++ "," ++ piece ++ "," ++ tail ->
  comma_free head = true -> comma_free piece = true ->
  exportDocumentAsBase64 network id w = (Returned (text piece), w).
Proof.
  intros Hget Hurl Hhead Hpiece.
  rewrite (export_inline network w id doc Hget).
  - rewrite Hurl.
    replace ("data:" ++ head ++ "," ++ piece ++ "," ++ tail)
      with (("data:" ++ head) ++ "," ++ piece ++ "," ++ tail)
      by (rewrite !append_assoc; reflexivity).
    rewrite split_comma_two; [reflexivity| |exact Hpiece].
    now rewrite comma_free_app, Hhead.
  - rewrite Hurl. discriminate.
  - rewrite Hurl. apply startsWith_data.
Qed.

Lemma X18_export_inline_second_piece_at_sample :
  exportDocumentAsBase64 Sample.offline "note"
    {| service :=
         {| documents :=
              {[ "note" :=
                   {| Document.id := "note"; Document.name := "Note";
                      Document.description := "TDS Document";
                      Document.filename := "note.pdf";
                      Document.url := "data:text/plain,Hello,world";
                      Document.size := 11; Document.type := TDS;
                      Document.required := false; Document.products := [];
                      Document.productType := "underlayment" |} ]};
            nextId := 1 |};
       localStorage := Case.empty_storage; console := []; progress := [] |}
  = (Returned (text "Hello"),
     {| service :=
         {| documents :=
              {[ "note" :=
                   {| Document.id := "note"; Document.name := "Note";
                      Document.description := "TDS Document";
                      Document.filename := "note.pdf";
                      Document.url := "data:text/plain,Hello,world";
                      Document.size := 11; Document.type := TDS;
                      Document.required := false; Document.products := [];
                      Document.productType := "underlayment" |} ]};
            nextId := 1 |};
       localStorage := Case.empty_storage; console := []; progress := [] |}).
Proof.
  eapply (X18_export_inline_second_piece Sample.offline _ "note" _
            "text/plain" "Hello" "world").
  - apply lookup_singleton_eq.
  - reflexivity.
  - reflexivity.
  - reflexivity.
Defined.

(** X19: for an inline reference without any comma
    [exportDocumentAsBase64] resolves to [undefined] - neither [null] nor a
    text - and changes nothing. *)
Theorem X19_export_inline_without_comma (network : string -> Remote)
    (w : World) (id : string) (doc : Document.t) (rest : string) :
  documents (service w) !! id = Some doc ->
  Document.url doc = "data:" ++ rest ->
  comma_free rest = true ->
  exportDocumentAsBase64 network id w = (Returned undefined, w).
Proof.
  intros Hget Hurl Hrest.
  rewrite (export_inline network w id doc Hget).
  - rewrite Hurl, split_comma_free; [reflexivity|].
    now rewrite comma_free_app, Hrest.
  - rewrite Hurl. discriminate.
  - rewrite Hurl. apply startsWith_data.
Qed.

Lemma X19_export_inline_without_comma_at_sample :
  documents (service Case.truncated_world) !! Document.id Case.truncated_doc
  = Some Case.truncated_doc
  /\ exportDocumentAsBase64 Sample.offline (Document.id Case.truncated_doc)
       Case.truncated_world
     = (Returned undefined, Case.truncated_world).
Proof.
  assert (Hget : documents (service Case.truncated_world)
                   !! Document.id Case.truncated_doc
                 = Some Case.truncated_doc).
  { vm_compute. reflexivity. }
  split; [exact Hget|].
  apply (X19_export_inline_without_comma Sample.offline Case.truncated_world
           _ Case.truncated_doc "application/pdf;base64" Hget);
    reflexivity.
Defined.

(** X20: what [uploadDocument] stored, [exportDocumentAsBase64] gives back
    as the Base64 text of the uploaded bytes, without using the network and
    without changing anything. *)
Theorem X20_export_returns_uploaded_bytes (network : string -> Remote)
    (file : File.t) (productType : string) (onProgress : bool) (now : Z)
    (suffix : string) (w : World) :
  valid (validatePDF file) = true ->
  File.reader_ok file = true ->
  exists (doc : Document.t) (w' : World),
    uploadDocument file productType onProgress now suffix w
    = (Returned doc, w')
    /\ Document.url doc
       = "data:application/pdf;base64," ++ Base64.encode (File.content file)
    /\ exportDocumentAsBase64 network (Document.id doc) w'
       = (Returned (text (Base64.encode (File.content file))), w').
Proof.
  intros Hvalid Hread.
  destruct (uploadDocument_accepted file productType onProgress now suffix w
              Hvalid Hread) as (w' & Hrun & Hsvc).
  eexists _, w'. split; [exact Hrun|]. split; [reflexivity|].
  apply (export_base64_url network w' _
           (new_document file productType now suffix
              (Some (Base64.encode (File.content file))))
           "application/pdf").
  - rewrite Hsvc. cbn [documents new_document Document.id].
    apply lookup_insert_eq.
  - reflexivity.
  - reflexivity.
  - apply encode_comma_free.
Qed.

Lemma X20_export_returns_uploaded_bytes_at_sample :
  valid (validatePDF Sample.file) = true
  /\ File.reader_ok Sample.file = true
  /\ exists (doc : Document.t) (w' : World),
       uploadDocument Sample.file "underlayment" false 1700000000009
         "e8x7p6o5r" Case.empty_world
       = (Returned doc, w')
       /\ exportDocumentAsBase64 Sample.offline (Document.id doc) w'
          = (Returned (text (Base64.encode (File.content Sample.file))), w').
Proof.
  assert (Hvalid : valid (validatePDF Sample.file) = true).
  { vm_compute. reflexivity. }
  split; [exact Hvalid|]. split; [reflexivity|].
  destruct (X20_export_returns_uploaded_bytes Sample.offline Sample.file
              "underlayment" false 1700000000009 "e8x7p6o5r" Case.empty_world
              Hvalid eq_refl)
    as (doc & w' & Hrun & _ & Hexport).
  exists doc, w'. split; assumption.
Defined.

(** ** Bulk export: [getAllDocumentsWithData] *)

Section BulkExport.

Implicit Type w : World.
Variable network : string -> Remote.

Lemma push_if_data_spec (results : list (Document.t * string))
    (doc : Document.t) (fileData : Payload) :
  push_if_data results doc fileData = results
  \/ exists (c : ascii) (rest : string),
       fileData = text (String c rest)
       /\ push_if_data results doc fileData
          = (results ++ [(doc, String c rest)])%list.
Proof.
  destruct fileData as [| |[|c rest]]; cbn [push_if_data]; eauto.
Qed.

(** Whatever the loop returns was added for a listed record and is not
    empty; the loop leaves the service and the storage alone. *)
Lemma collect_data_returned (docs : list Document.t) :
  forall (results : list (Document.t * string)) w
         (out : list (Document.t * string)) (w' : World),
    collect_data network docs results w = (Returned out, w') ->
    service w' = service w
    /\ localStorage w' = localStorage w
    /\ exists added : list (Document.t * string),
         out = (results ++ added)%list
         /\ forall doc data,
              In (doc, data) added -> In doc docs /\ data <> EmptyString.
Proof.
  induction docs as [|doc docs IH]; intros results w out w' Hrun.
  - cbn [collect_data] in Hrun. unfold ret in Hrun. injection Hrun as <- <-.
    repeat split. exists []. rewrite app_nil_r. split; [reflexivity|].
    intros d s [].
  - cbn [collect_data] in Hrun. unfold bind in Hrun.
    destruct (exportDocumentAsBase64 network (Document.id doc) w)
      as [[fileData|e] w1] eqn:Hexport; [|discriminate].
    assert (Hw1 : w1 = snd (exportDocumentAsBase64 network (Document.id doc) w))
      by now rewrite Hexport.
    assert (Hsvc : service w1 = service w)
      by (rewrite Hw1; apply export_service).
    assert (Hls : localStorage w1 = localStorage w).
    { rewrite Hw1.
      destruct (export_outcome network (Document.id doc) w)
        as [[result ->] | [-> | [-> _]]]; reflexivity. }
    apply IH in Hrun as (Hsvc' & Hls' & added & -> & Hadded).
    split; [congruence|]. split; [congruence|].
    destruct (push_if_data_spec results doc fileData)
      as [-> | (c & rest & _ & ->)].
    + exists added. split; [reflexivity|].
      intros d s Hin. destruct (Hadded d s Hin). split; [now right|assumption].
    + exists ((doc, String c rest) :: added).
      split; [now rewrite <- app_assoc|].
      intros d s [[= <- <-] | Hin].
      * split; [now left|discriminate].
      * destruct (Hadded d s Hin). split; [now right|assumption].
Qed.

(** Without an unreadable blob the loop runs to its end. *)
Lemma collect_data_returns (docs : list Document.t) :
  (forall url blob, network url = body blob -> Blob.reader_ok blob = true) ->
  forall (results : list (Document.t * string)) w,
    exists (out : list (Document.t * string)) (w' : World),
      collect_data network docs results w = (Returned out, w').
Proof.
  intros Hnet. induction docs as [|doc docs IH]; intros results w.
  - eexists _, _. reflexivity.
  - cbn [collect_data]. unfold bind.
    destruct (export_outcome network (Document.id doc) w)
      as [[result ->] | [-> | [_ (d & blob & _ & _ & _ & Hbody & Hread)]]].
    + apply IH.
    + apply IH.
    + rewrite (Hnet _ _ Hbody) in Hread. discriminate.
Qed.

(** One record whose blob cannot be read stops the loop with the reader's
    event. *)
Lemma collect_data_throws (docs : list Document.t) (doc : Document.t)
    (blob : Blob.t) :
  In doc docs ->
  Document.url doc <> EmptyString ->
  startsWith (Document.url doc) "data:" = false ->
  network (Document.url doc) = body blob ->
  Blob.reader_ok blob = false ->
  forall (results : list (Document.t * string)) w,
    documents (service w) !! Document.id doc = Some doc ->
    exists w' : World,
      collect_data network docs results w = (Threw NotAnError, w').
Proof.
  intros Hin Hurl Hdata Hbody Hread.
  induction docs as [|first docs IH]; intros results w Hget; [destruct Hin|].
  cbn [collect_data]. unfold bind.
  destruct (export_outcome network (Document.id first) w)
    as [[result Hrun] | [Hrun | [Hrun _]]].
  - rewrite Hrun. destruct Hin as [-> | Hin]; [|now apply IH].
    rewrite (export_remote network w _ doc Hget Hurl Hdata), Hbody, Hread
      in Hrun.
    discriminate.
  - rewrite Hrun. destruct Hin as [-> | Hin]; [|now apply IH].
    rewrite (export_remote network w _ doc Hget Hurl Hdata), Hbody, Hread
      in Hrun.
    discriminate.
  - rewrite Hrun. eexists. reflexivity.
Qed.

(** Records with a filled inline reference are all collected, in order. *)
Lemma collect_data_inline (docs : list Document.t) :
  forall (results : list (Document.t * string)) w,
    (forall doc,
       In doc docs ->
       exists (c : ascii) (rest : string),
         exportDocumentAsBase64 network (Document.id doc) w
         = (Returned (text (String c rest)), w)) ->
    exists added : list (Document.t * string),
      collect_data network docs results w
      = (Returned (results ++ added)%list, w)
      /\ fst <$> added = docs.
Proof.
  induction docs as [|doc docs IH]; intros results w Hall.
  - exists []. rewrite app_nil_r. split; reflexivity.
  - destruct (Hall doc (or_introl eq_refl)) as (c & rest & Hrun).
    cbn [collect_data]. unfold bind. rewrite Hrun. cbn [push_if_data].
    destruct (IH (results ++ [(doc, String c rest)])%list w) as (added & -> & Hfst).
    { intros d Hd. apply Hall. now right. }
    exists ((doc, String c rest) :: added).
    split; [now rewrite <- app_assoc|].
    rewrite fmap_cons. cbn [fst]. now rewrite Hfst.
Qed.

Lemma values_stored w (doc : Document.t) :
  In doc (snd <$> map_to_list (documents (service w)))
  <-> exists key : string, documents (service w) !! key = Some doc.
Proof.
  rewrite <- list_elem_of_In, list_elem_of_fmap. split.
  - intros ([key d] & -> & Hin). exists key.
    now apply elem_of_map_to_list.
  - intros [key Hget]. exists (key, doc). split; [reflexivity|].
    now apply elem_of_map_to_list.
Qed.

End BulkExport.

(** X21: whenever [getAllDocumentsWithData] returns, every entry of the
    result is a record of the collection together with a text that is not
    empty (records whose export gave [null], [undefined] or the empty text
    are left out), and the collection and the storage are unchanged. *)
Theorem X21_bulk_export_entries (network : string -> Remote) (w w' : World)
    (out : list (Document.t * string)) :
  getAllDocumentsWithData network w = (Returned out, w') ->
  service w' = service w
  /\ localStorage w' = localStorage w
  /\ (forall (doc : Document.t) (data : string),
        In (doc, data) out ->
        data <> EmptyString
        /\ exists key : string, documents (service w) !! key = Some doc).
Proof.
  unfold getAllDocumentsWithData, bind, documents_values. intros Hrun.
  apply collect_data_returned in Hrun as (Hsvc & Hls & added & -> & Hadded).
  split; [exact Hsvc|]. split; [exact Hls|].
  intros doc data Hin. cbn [app] in Hin.
  destruct (Hadded doc data Hin) as [Hdoc Hdata].
  split; [exact Hdata|]. now apply values_stored.
Qed.

Lemma X21_bulk_export_entries_at_sample :
  exists (out : list (Document.t * string)) (w' : World),
    getAllDocumentsWithData Sample.offline Sample.world = (Returned out, w')
    /\ service w' = service Sample.world
    /\ localStorage w' = localStorage Sample.world.
Proof.
  destruct (collect_data_returns Sample.offline
              (snd <$> map_to_list (documents (service Sample.world)))
              ltac:(discriminate) [] Sample.world) as (out & w' & Hrun).
  exists out, w'. split; [exact Hrun|].
  destruct (X21_bulk_export_entries Sample.offline Sample.world w' out Hrun)
    as (Hsvc & Hls & _).
  split; assumption.
Defined.



(** X23: in a reachable state, one record with a remote reference whose
    fetched blob cannot be read makes the whole of
    [getAllDocumentsWithData] reject with the reader's event: the entries
    collected before it are not returned. *)
Theorem X23_bulk_export_fails_as_a_whole (network : string -> Remote)
    (w : World) (key : string) (doc : Document.t) (blob : Blob.t) :
  reachable w ->
  documents (service w) !! key = Some doc ->
  Document.url doc <> EmptyString ->
  startsWith (Document.url doc) "data:" = false ->
  network (Document.url doc) = body blob ->
  Blob.reader_ok blob = false ->
  exists w' : World,
    getAllDocumentsWithData network w = (Threw NotAnError, w').
Proof.
  intros Hreach Hget Hurl Hdata Hbody Hread.
  pose proof (reachable_keyed w Hreach key doc Hget) as ->.
  unfold getAllDocumentsWithData, bind, documents_values.
  apply (collect_data_throws network _ doc blob); try assumption.
  apply values_stored. now exists (Document.id doc).
Qed.

Lemma X23_bulk_export_fails_as_a_whole_at_sample :
  reachable Sample.world
  /\ documents (service Sample.world) !! Document.id Sample.remote_doc
     = Some Sample.remote_doc
  /\ exists w' : World,
       getAllDocumentsWithData Case.broken_body Sample.world
       = (Threw NotAnError, w').
Proof.
  assert (Hreach : reachable Sample.world)
    by apply (reachable_new Sample.storage).
  assert (Hget : documents (service Sample.world)
                   !! Document.id Sample.remote_doc = Some Sample.remote_doc).
  { vm_compute. reflexivity. }
  split; [exact Hreach|]. split; [exact Hget|].
  eapply (X23_bulk_export_fails_as_a_whole Case.broken_body Sample.world _
            Sample.remote_doc _ Hreach Hget).
  - discriminate.
  - reflexivity.
  - reflexivity.
  - reflexivity.
Defined.

(** X24: in a reachable state whose records all carry a filled inline
    reference of the form [data:<mime>;base64,<payload>] - the form
    [uploadDocument] writes - [getAllDocumentsWithData] returns one entry
    for every record of the collection, uses no network and changes
    nothing. *)
Theorem X24_bulk_export_of_inline_records (network : string -> Remote)
    (w : World) :
  reachable w ->
  (forall (key : string) (doc : Document.t),
     documents (service w) !! key = Some doc ->
     exists (mime : string) (c : ascii) (rest : string),
       Document.url doc = "data:" ++ mime ++ ";base64," ++ String c rest
       /\ comma_free mime = true
       /\ comma_free (String c rest) = true) ->
  exists out : list (Document.t * string),
    getAllDocumentsWithData network w = (Returned out, w)
    /\ fst <$> out = snd <$> map_to_list (documents (service w)).
Proof.
  intros Hreach Hinline.
  pose proof (reachable_keyed w Hreach) as Hkeyed.
  unfold getAllDocumentsWithData, bind, documents_values.
  destruct (collect_data_inline network
              (snd <$> map_to_list (documents (service w))) [] w)
    as (added & Hrun & Hfst).
  - intros doc Hdoc. apply values_stored in Hdoc as [key Hget].
    destruct (Hinline key doc Hget) as (mime & c & rest & Hurl & Hm & Hp).
    exists c, rest. rewrite (Hkeyed key doc Hget) in Hget.
    now apply (export_base64_url network w _ doc mime).
  - exists added. split; [exact Hrun|exact Hfst].
Qed.

Lemma X24_bulk_export_of_inline_records_at_sample :
  reachable
    (new_DocumentService
       {| item := Some (Snapshot [Sample.doc]);
          getItem_ok := true; setItem_ok := true |})
  /\ exists out : list (Document.t * string),
       getAllDocumentsWithData Sample.offline
         (new_DocumentService
            {| item := Some (Snapshot [Sample.doc]);
               getItem_ok := true; setItem_ok := true |})
       = (Returned out,
          new_DocumentService
            {| item := Some (Snapshot [Sample.doc]);
               getItem_ok := true; setItem_ok := true |}).
Proof.
  split; [apply reachable_new|].
  destruct (X24_bulk_export_of_inline_records Sample.offline
              (new_DocumentService
                 {| item := Some (Snapshot [Sample.doc]);
                    getItem_ok := true; setItem_ok := true |}))
    as (out & Hrun & _).
  - apply reachable_new.
  - intros key doc Hget.
    rewrite (new_DocumentService_snapshot
               {| item := Some (Snapshot [Sample.doc]);
                  getItem_ok := true; setItem_ok := true |}
               [Sample.doc] eq_refl eq_refl)
      in Hget.
    apply foldl_set_origin in Hget as [[[<- | []] _] | Hempty].
    + exists "application/pdf", "J"%char, "VBERi0xLjQ=". repeat split.
    + rewrite lookup_empty in Hempty. discriminate.
  - exists out. exact Hrun.
Defined.

(** ** Listing *)

(** X25: [getDocumentsByProductType] returns the records of the collection
    whose product category is the one asked for, and no others, and changes
    nothing - on any platform whose [sort] hands back the elements it was
    given, in whatever order. *)
Theorem X25_listing_by_product_type (getTime : string -> option Z)
    (sort : (Document.t -> Document.t -> option Z) ->
            list Document.t -> list Document.t)
    (productType : string) (w : World) :
  (forall compare docs, sort compare docs ≡ₚ docs) ->
  exists listed : list Document.t,
    getDocumentsByProductType getTime sort productType w
    = (Returned listed, w)
    /\ forall doc : Document.t,
         In doc listed
         <-> Document.productType doc = productType
             /\ exists key : string, documents (service w) !! key = Some doc.
Proof.
  intros Hsort. eexists. split; [reflexivity|].
  intros doc. rewrite <- list_elem_of_In, Hsort, list_elem_of_In.
  rewrite List.filter_In, values_stored, String.eqb_eq. tauto.
Qed.

Lemma X25_listing_by_product_type_at_sample :
  (forall compare docs, Case.keep_order compare docs ≡ₚ docs)
  /\ exists listed : list Document.t,
       getDocumentsByProductType Case.no_dates Case.keep_order
         "structural-floor" Sample.world
       = (Returned listed, Sample.world)
       /\ (In Sample.remote_doc listed
           <-> Document.productType Sample.remote_doc = "structural-floor"
               /\ exists key : string,
                    documents (service Sample.world) !! key
                    = Some Sample.remote_doc).
Proof.
  assert (Hsort : forall compare docs, Case.keep_order compare docs ≡ₚ docs).
  { intros compare docs. reflexivity. }
  split; [exact Hsort|].
  destruct (X25_listing_by_product_type Case.no_dates Case.keep_order
              "structural-floor" Sample.world Hsort) as (listed & Hrun & Hin).
  exists listed. split; [exact Hrun|apply Hin].
Defined.

(** X26: [getAllDocuments] returns every record of the collection, as often
    as the collection holds it and in some order, and changes nothing - on
    any platform whose [sort] hands back the elements it was given. *)
Theorem X26_listing_all (getTime : string -> option Z)
    (sort : (Document.t -> Document.t -> option Z) ->
            list Document.t -> list Document.t)
    (w : World) :
  (forall compare docs, sort compare docs ≡ₚ docs) ->
  exists listed : list Document.t,
    getAllDocuments getTime sort w = (Returned listed, w)
    /\ listed ≡ₚ snd <$> map_to_list (documents (service w))
    /\ List.length listed = size (documents (service w)).
Proof.
  intros Hsort. eexists. split; [reflexivity|].
  split; [apply Hsort|].
  now rewrite Hsort, length_fmap, length_map_to_list.
Qed.

Lemma X26_listing_all_at_sample :
  (forall compare docs, Case.keep_order compare docs ≡ₚ docs)
  /\ exists listed : list Document.t,
       getAllDocuments Case.no_dates Case.keep_order Sample.world
       = (Returned listed, Sample.world)
       /\ List.length listed = size (documents (service Sample.world)).
Proof.
  assert (Hsort : forall compare docs, Case.keep_order compare docs ≡ₚ docs).
  { intros compare docs. reflexivity. }
  split; [exact Hsort|].
  destruct (X26_listing_all Case.no_dates Case.keep_order Sample.world Hsort)
    as (listed & Hrun & _ & Hlen).
  exists listed. split; assumption.
Defined.

(** ** The mock authentication service *)

(** X27: [signInAdmin] succeeds exactly when the password is [admin123],
    whatever the e-mail; a failed attempt throws ['Invalid login
    credentials'] - never ['Authentication failed'] - and leaves the flag as
    it was, so it does not end a session that was open. *)
Theorem X27_sign_in_by_password_only (email password : string)
    (s : AuthService.t) :
  ((exists session, fst (AuthService.signInAdmin email password s)
                    = Returned session)
   <-> password = "admin123")
  /\ (password = "admin123" ->
      AuthService.isAuth (snd (AuthService.signInAdmin email password s))
      = true)
  /\ (password <> "admin123" ->
      AuthService.signInAdmin email password s
      = (Threw (Error "Invalid login credentials"), s)).
Proof.
  unfold AuthService.signInAdmin.
  destruct (String.eqb_spec password "admin123") as [Hpw | Hpw];
    cbn [fst snd AuthService.isAuth].
  - split; [split; [trivial|eauto]|]. split; [trivial|contradiction].
  - split; [split; [intros [? ?]; discriminate|contradiction]|].
    split; [contradiction|reflexivity].
Qed.

(** X28: after a successful sign-in the session carries the e-mail that was
    given (the default address when it was empty), but [getUser] reports
    the fixed address [admin@example.com] with id [1]; after [signOut] it
    reports nobody. *)
Theorem X28_user_of_a_session (email password : string) (s s' : AuthService.t)
    (session : AuthService.Session) :
  AuthService.signInAdmin email password s = (Returned session, s') ->
  AuthService.email (AuthService.user session)
  = or_else email "admin@example.com"
  /\ AuthService.getUser s'
     = (Returned (Some {| AuthService.id := "1";
                          AuthService.email := "admin@example.com" |}), s')
  /\ AuthService.isAuthenticated s' = (Returned true, s')
  /\ AuthService.getUser (snd (AuthService.signOut s'))
     = (Returned None, snd (AuthService.signOut s')).
Proof.
  unfold AuthService.signInAdmin.
  destruct (String.eqb password "admin123"); [|discriminate].
  intros [= <- <-]. repeat split.
Qed.

Lemma X28_user_of_a_session_at_sample :
  AuthService.signInAdmin "bob@example.com" "admin123"
    {| AuthService.isAuth := false |}
  = (Returned {| AuthService.user :=
                   {| AuthService.id := "1";
                      AuthService.email := "bob@example.com" |} |},
     {| AuthService.isAuth := true |})
  /\ AuthService.getUser {| AuthService.isAuth := true |}
     = (Returned (Some {| AuthService.id := "1";
                          AuthService.email := "admin@example.com" |}),
        {| AuthService.isAuth := true |}).
Proof.
  assert (Hrun :
    AuthService.signInAdmin "bob@example.com" "admin123"
      {| AuthService.isAuth := false |}
    = (Returned {| AuthService.user :=
                     {| AuthService.id := "1";
                        AuthService.email := "bob@example.com" |} |},
       {| AuthService.isAuth := true |})) by reflexivity.
  split; [exact Hrun|].
  exact (proj1 (proj2 (X28_user_of_a_session _ _ _ _ _ Hrun))).
Defined.
